(** * Safiri Sales: the point-of-sale cart, the checkout sequence and the
      dashboard statistics

    A shallow embedding of [src/pages/POS.tsx] and [src/pages/Dashboard.tsx]
    together with the part of the database migration their calls rely on.

    Conventions of the embedding.
    - A JavaScript [number] that holds money or a rate ([selling_price],
      [vat_rate], [line_total], the totals) is an exact rational [Qc]: the
      formulas are kept as the code writes them, binary rounding is not
      modelled, and [x / 0] is [0] as in [Qcanon], where the code has an
      infinity or NaN: what is stated of a quotient is stated for a divisor
      other than zero.
    - A [number] that counts units ([quantity], [stock_quantity],
      [reorder_level]) is an integer [Z]: the cart starts every item at 1,
      the screen only ever asks for [quantity - 1] and [quantity + 1], and
      the columns are INTEGER.
    - An identifier (UUID, rendered as text) is a [string].
    - An instant is a number of milliseconds since the epoch, a [Z]. *)

From Stdlib Require Import ZArith QArith Qcanon Lia.
From stdpp Require Import base tactics option list numbers strings pretty.

Local Open Scope Z_scope.

(** ** Numbers *)

(** [number], for money and rates. *)
Abbreviation number := Qc.

(** The value of an integer [number] among the rationals. *)
Definition of_Z (z : Z) : number := Qc_of_Z z.

(** [a || 0] on numbers: [0] is the only falsy rational. *)
Definition or_zero (a : number) : number :=
  if decide (a = 0%Qc) then 0%Qc else a.

(** A string that may be null, as a condition: null and the empty string
    are falsy ([!storeId]). *)
Definition truthy (s : option string) : option string :=
  match s with
  | Some EmptyString => None
  | other => other
  end.
Arguments truthy : simpl never.

(** The sum of a list of numbers, the mathematical one: the words
    "the sum over the items of ..." of the specification. *)
Fixpoint sum_of (l : list number) : number :=
  match l with
  | [] => 0%Qc
  | x :: l' => (x + sum_of l')%Qc
  end.

(** ** The cart ([POS.tsx], lines 13-107) *)

Module Cart.

(** [interface Product] *)
Record Product : Type := mkProduct {
  p_id : string;
  p_name : string;
  p_selling_price : number;
  p_stock_quantity : Z;
  p_vat_rate : number;
}.

(** [interface CartItem extends Product] *)
Record CartItem : Type := mkCartItem {
  id : string;
  name : string;
  selling_price : number;
  stock_quantity : Z;
  vat_rate : number;
  quantity : Z;
  line_total : number;
}.

Definition cart : Type := list CartItem.

(** What a handler shows to the cashier. *)
Inductive toast : Type :=
| ToastError (msg : string)
| ToastSuccess (msg : string).

(** [{ ...item, quantity, line_total: Number(item.selling_price) * quantity }] *)
Definition with_quantity (item : CartItem) (q : Z) : CartItem :=
  {| id := id item;
     name := name item;
     selling_price := selling_price item;
     stock_quantity := stock_quantity item;
     vat_rate := vat_rate item;
     quantity := q;
     line_total := (selling_price item * of_Z q)%Qc |}.

(** [{ ...product, quantity: 1, line_total: Number(product.selling_price) }] *)
Definition newItem (product : Product) : CartItem :=
  {| id := p_id product;
     name := p_name product;
     selling_price := p_selling_price product;
     stock_quantity := p_stock_quantity product;
     vat_rate := p_vat_rate product;
     quantity := 1;
     line_total := p_selling_price product |}.

(** [updateQuantity]: the item of that product gets
    [Math.max(0, newQuantity)] and its line total again, then the items
    whose quantity is not positive are dropped. *)
Definition updateQuantity (c : cart) (productId : string) (newQuantity : Z)
  : cart :=
  filter (fun item => 0 < quantity item)
    (map (fun item =>
            if decide (id item = productId)
            then with_quantity item (Z.max 0 newQuantity)
            else item) c).

(** [removeFromCart] *)
Definition removeFromCart (c : cart) (productId : string) : cart :=
  filter (fun item => id item <> productId) c.

Definition not_enough_stock : string := "Not enough stock available".

(** [addToCart]: the new cart and the error shown, if any. *)
Definition addToCart (c : cart) (product : Product) : cart * option toast :=
  match List.find (fun item => bool_decide (id item = p_id product)) c with
  | Some existingItem =>
      if decide (p_stock_quantity product <= quantity existingItem)
      then (c, Some (ToastError not_enough_stock))
      else (updateQuantity c (p_id product) (quantity existingItem + 1), None)
  | None => (c ++ [newItem product], None)
  end.

(** The result of [calculateTotals]. *)
Record Totals : Type := mkTotals {
  subtotal : number;
  vatAmount : number;
  total : number;
}.

(** [(item.line_total * item.vat_rate) / (100 + item.vat_rate)]; the
    divisor is zero for a rate of -100 only. *)
Definition itemVat (item : CartItem) : number :=
  ((line_total item * vat_rate item) / (of_Z 100 + vat_rate item))%Qc.

(** [calculateTotals]: two [reduce]s from 0 over the cart, left to right. *)
Definition calculateTotals (c : cart) : Totals :=
  let subtotal := fold_left (fun sum item => (sum + line_total item)%Qc) c 0%Qc in
  let vatAmount := fold_left (fun sum item => (sum + itemVat item)%Qc) c 0%Qc in
  {| subtotal := subtotal; vatAmount := vatAmount; total := subtotal |}.

(** The three handlers the screen binds to its buttons. *)
Inductive action : Type :=
| AddToCart (product : Product)
| UpdateQuantity (productId : string) (newQuantity : Z)
| RemoveFromCart (productId : string).

Definition perform (c : cart) (a : action) : cart :=
  match a with
  | AddToCart product => fst (addToCart c product)
  | UpdateQuantity productId newQuantity => updateQuantity c productId newQuantity
  | RemoveFromCart productId => removeFromCart c productId
  end.

(** The cart after a sequence of actions, one state update each. *)
Definition performAll (c : cart) (l : list action) : cart :=
  fold_left perform l c.

(** Well-formed carts. *)
Definition item_ok (item : CartItem) : Prop :=
  1 <= quantity item /\
  line_total item = (selling_price item * of_Z (quantity item))%Qc.

Definition well_formed (c : cart) : Prop :=
  Forall item_ok c /\ NoDup (map id c).

End Cart.

(** ** The backend ([supabase/migrations/...sql] and the client's calls)

    The tables the two screens touch, with the columns they read or write,
    and the calls they issue.  The backend is not under the client's
    control.  Whether a call is applied is decided by the rows already
    there and by who is signed in, where the migration says so: the UNIQUE
    constraint on [sales.receipt_number], the foreign key from
    [sale_items.product_id] to [products.id], and the policy that lets only
    managers and admins update products.  Every other refusal (the network,
    the other policies and constraints), which is an error returned to the
    client and does not depend on the products table, is decided by an
    oracle, the list [faults], read one flag per call. *)

Module Backend.

(** [CREATE TYPE public.app_role], [CREATE TYPE public.payment_method],
    [CREATE TYPE public.sale_status] *)
Inductive app_role : Type := role_admin | role_manager | role_cashier.
Inductive payment_method : Type := mpesa | cash | card.
Inductive sale_status : Type := completed | voided | pending.

Global Instance app_role_eq_dec : EqDecision app_role.
Proof. solve_decision. Defined.

Global Instance sale_status_eq_dec : EqDecision sale_status.
Proof. solve_decision. Defined.

(** The object given to [from("sales").insert]. *)
Record SaleInsert : Type := mkSaleInsert {
  receipt_number : string;
  store_id : string;
  cashier_id : string;
  subtotal : number;
  vat_amount : number;
  total_amount : number;
  status : option sale_status;
}.

(** A row of [public.sales]: the inserted columns and the two the database
    fills in ([id] by [gen_random_uuid()], [created_at] by [now()]). *)
Record Sale : Type := mkSale {
  sale_id : string;
  created_at : Z;
  sale_data : SaleInsert;
}.

(** A row given to [from("sale_items").insert]. *)
Record SaleItem : Type := mkSaleItem {
  si_sale_id : string;
  si_product_id : string;
  si_product_name : string;
  si_quantity : Z;
  si_unit_price : number;
  si_vat_rate : number;
  si_line_total : number;
}.

(** The object given to [from("payments").insert]. *)
Record Payment : Type := mkPayment {
  pay_sale_id : string;
  pay_payment_method : payment_method;
  pay_amount : number;
}.

(** A row of [public.products]: the columns the screens select, and
    [updated_at], which a trigger sets on every update of the row. *)
Record ProductRow : Type := mkProductRow {
  pr_id : string;
  pr_name : string;
  pr_store_id : string;
  pr_selling_price : number;
  pr_stock_quantity : Z;
  pr_reorder_level : option Z;
  pr_vat_rate : number;
  pr_active : option bool;
  pr_updated_at : Z;
}.

(** A row of [public.profiles]. *)
Record Profile : Type := mkProfile {
  pf_id : string;
  pf_store_id : option string;
}.

(** [user_roles] holds the rows of [public.user_roles] as pairs of a user
    and a role. *)
Record DB : Type := mkDB {
  products : list ProductRow;
  sales : list Sale;
  sale_items : list SaleItem;
  payments : list Payment;
  profiles : list Profile;
  user_roles : list (string * app_role);
  next_uuid : N;
}.

(** The calls of the two screens. *)
Inductive Call : Type :=
| InsertSale (row : SaleInsert)
| InsertSaleItems (rows : list SaleItem)
| InsertPayment (row : Payment)
| UpdateStock (product_id : string) (new_stock_quantity : Z)
| SelectProducts (store : string)
| SelectProfile (user_id : string)
| SelectTodaySales (store : string) (since : Z)
| SelectInventory (store : string).

(** A call together with whether the backend applied it. *)
Definition Event : Type := (Call * bool)%type.

(** [session] is the user the calls are made for ([auth.uid()]). *)
Record World : Type := mkWorld {
  db : DB;
  trace : list Event;
  faults : list bool;
  clock : Z;
  session : option string;
}.

Inductive error : Type :=
| UniqueViolation
| ForeignKeyViolation
| BackendFault
| NoSingleRow
| TypeError.

(** [{ data, error }] *)
Inductive response (A : Type) : Type :=
| Data (data : A)
| Failure (e : error).
Arguments Data {A} data.
Arguments Failure {A} e.

(** What a piece of the handler does: it returns or it throws. *)
Inductive outcome (A : Type) : Type :=
| Return (a : A)
| Throw (e : error).
Arguments Return {A} a.
Arguments Throw {A} e.

Definition M (A : Type) : Type := World -> outcome A * World.

Definition ret {A} (a : A) : M A := fun w => (Return a, w).

Definition throw {A} (e : error) : M A := fun w => (Throw e, w).

Definition bind {A B} (m : M A) (k : A -> M B) : M B :=
  fun w =>
    match m w with
    | (Return a, w') => k a w'
    | (Throw e, w') => (Throw e, w')
    end.

Declare Scope checkout_scope.
Delimit Scope checkout_scope with checkout.
Notation "x <- m ;; k" := (bind m (fun x => k))
  (at level 100, m at next level, right associativity) : checkout_scope.
Notation "m ;; k" := (bind m (fun _ => k))
  (at level 100, right associativity) : checkout_scope.

(** [if (error) throw error], the data otherwise. *)
Definition orThrow {A} (r : response A) : M A :=
  match r with
  | Data a => ret a
  | Failure e => throw e
  end.

(** [for (const x of l) await body(x)] *)
Fixpoint forEach {A} (l : list A) (body : A -> M unit) : M unit :=
  match l with
  | [] => ret tt
  | x :: l' => bind (body x) (fun _ => forEach l' body)
  end.

(** The next flag of the oracle; no flag left means no fault. *)
Definition next_fault (w : World) : bool :=
  match faults w with
  | [] => false
  | f :: _ => f
  end.

(** One call has been answered: the database is [d], the call is logged
    with its result and one flag of the oracle is used up. *)
Definition answered (w : World) (d : DB) (c : Call) (ok : bool) : World :=
  {| db := d;
     trace := trace w ++ [(c, ok)];
     faults := tail (faults w);
     clock := clock w;
     session := session w |}.

Definition set_products (d : DB) (l : list ProductRow) : DB :=
  {| products := l; sales := sales d; sale_items := sale_items d;
     payments := payments d; profiles := profiles d;
     user_roles := user_roles d; next_uuid := next_uuid d |}.

Definition add_sale (d : DB) (s : Sale) : DB :=
  {| products := products d; sales := sales d ++ [s];
     sale_items := sale_items d; payments := payments d;
     profiles := profiles d; user_roles := user_roles d;
     next_uuid := N.succ (next_uuid d) |}.

Definition add_sale_items (d : DB) (l : list SaleItem) : DB :=
  {| products := products d; sales := sales d;
     sale_items := sale_items d ++ l; payments := payments d;
     profiles := profiles d; user_roles := user_roles d;
     next_uuid := next_uuid d |}.

Definition add_payment (d : DB) (p : Payment) : DB :=
  {| products := products d; sales := sales d;
     sale_items := sale_items d; payments := payments d ++ [p];
     profiles := profiles d; user_roles := user_roles d;
     next_uuid := next_uuid d |}.

Definition receipts (d : DB) : list string :=
  map (fun s => receipt_number (sale_data s)) (sales d).

(** The row the database stores for an inserted sale, which is also the
    row [.select().single()] gives back: the amounts are kept as they were
    given; the rounding to two decimals of the [DECIMAL(10,2)] columns is
    not modelled, so nothing is stated here about the digits of a stored
    amount. *)
Definition stored (w : World) (row : SaleInsert) : Sale :=
  {| sale_id := pretty (next_uuid (db w));
     created_at := clock w;
     sale_data := row |}.

(** [from("sales").insert(row).select().single()]: refused when the
    receipt number is already there ([receipt_number TEXT UNIQUE]) or when
    the oracle says so; the stored row is returned otherwise. *)
Definition insert_sale (row : SaleInsert) : M (response Sale) :=
  fun w =>
    if bool_decide (receipt_number row ∈ receipts (db w)) then
      (Return (Failure UniqueViolation), answered w (db w) (InsertSale row) false)
    else if next_fault w then
      (Return (Failure BackendFault), answered w (db w) (InsertSale row) false)
    else
      (Return (Data (stored w row)),
       answered w (add_sale (db w) (stored w row)) (InsertSale row) true).

(** [product_id UUID REFERENCES public.products(id)]: every row names a
    product that is in the products table. *)
Definition products_exist (d : DB) (rows : list SaleItem) : bool :=
  forallb (fun r => bool_decide (si_product_id r ∈ map pr_id (products d))) rows.

(** [from("sale_items").insert(rows)]: one statement, all rows or none;
    refused when a row names a product that does not exist or when the
    oracle says so. *)
Definition insert_sale_items (rows : list SaleItem) : M (response unit) :=
  fun w =>
    if negb (products_exist (db w) rows) then
      (Return (Failure ForeignKeyViolation),
       answered w (db w) (InsertSaleItems rows) false)
    else if next_fault w then
      (Return (Failure BackendFault),
       answered w (db w) (InsertSaleItems rows) false)
    else
      (Return (Data tt),
       answered w (add_sale_items (db w) rows) (InsertSaleItems rows) true).

(** [from("payments").insert(row)] *)
Definition insert_payment (row : Payment) : M (response unit) :=
  fun w =>
    if next_fault w then
      (Return (Failure BackendFault), answered w (db w) (InsertPayment row) false)
    else
      (Return (Data tt),
       answered w (add_payment (db w) row) (InsertPayment row) true).

Definition with_stock (p : ProductRow) (q : Z) : ProductRow :=
  {| pr_id := pr_id p; pr_name := pr_name p; pr_store_id := pr_store_id p;
     pr_selling_price := pr_selling_price p; pr_stock_quantity := q;
     pr_reorder_level := pr_reorder_level p; pr_vat_rate := pr_vat_rate p;
     pr_active := pr_active p; pr_updated_at := pr_updated_at p |}.

(** [update_products_updated_at], before every update of a row:
    [NEW.updated_at = now()]. *)
Definition touched (p : ProductRow) (now : Z) : ProductRow :=
  {| pr_id := pr_id p; pr_name := pr_name p; pr_store_id := pr_store_id p;
     pr_selling_price := pr_selling_price p;
     pr_stock_quantity := pr_stock_quantity p;
     pr_reorder_level := pr_reorder_level p; pr_vat_rate := pr_vat_rate p;
     pr_active := pr_active p; pr_updated_at := now |}.

(** The table after [UPDATE products SET stock_quantity = q WHERE id = product_id],
    made at the instant [now]. *)
Definition set_stock (product_id : string) (q : Z) (now : Z)
  (l : list ProductRow) : list ProductRow :=
  map (fun p => if decide (pr_id p = product_id)
                then touched (with_stock p q) now else p) l.

(** [public.has_role]: a row of [user_roles] gives the user the role. *)
Definition has_role (d : DB) (user_id : string) (role : app_role) : bool :=
  bool_decide ((user_id, role) ∈ user_roles d).

(** The one policy that allows updates of products, "Managers and admins
    can manage products":
    [USING (has_role(auth.uid(), 'admin') OR has_role(auth.uid(), 'manager'))]. *)
Definition manages_products (w : World) : bool :=
  match session w with
  | Some user_id =>
      has_role (db w) user_id role_admin || has_role (db w) user_id role_manager
  | None => false
  end.

(** [from("products").update({ stock_quantity: q }).eq("id", product_id)]:
    an error when the oracle says so; otherwise no error, and the row is
    changed only for a manager or an admin: for anybody else the policy
    hides every row from the update, which then changes nothing.  The
    event says whether the update was applied. *)
Definition update_stock (product_id : string) (q : Z) : M (response unit) :=
  fun w =>
    if next_fault w then
      (Return (Failure BackendFault),
       answered w (db w) (UpdateStock product_id q) false)
    else if manages_products w then
      (Return (Data tt),
       answered w
         (set_products (db w)
            (set_stock product_id q (clock w) (products (db w))))
         (UpdateStock product_id q) true)
    else
      (Return (Data tt),
       answered w (db w) (UpdateStock product_id q) false).

(** The rows of [.eq("store_id", store).eq("active", true)]. *)
Definition active_in (store : string) (p : ProductRow) : Prop :=
  pr_store_id p = store /\ pr_active p = Some true.

Global Instance active_in_dec store p : Decision (active_in store p).
Proof. unfold active_in. apply _. Defined.

(** A read-only call. *)
Definition select {A} (c : Call) (rows : DB -> A) : M (response A) :=
  fun w =>
    if next_fault w then
      (Return (Failure BackendFault), answered w (db w) c false)
    else
      (Return (Data (rows (db w))), answered w (db w) c true).

(** The same with [.single()]: an error unless exactly one row is found. *)
Definition select_single {A} (c : Call) (rows : DB -> list A) : M (response A) :=
  fun w =>
    if next_fault w then
      (Return (Failure BackendFault), answered w (db w) c false)
    else
      match rows (db w) with
      | [row] => (Return (Data row), answered w (db w) c true)
      | _ => (Return (Failure NoSingleRow), answered w (db w) c false)
      end.

End Backend.

(** ** The checkout ([POS.tsx], lines 26-32 and 109-198) *)

Module POS.
Import Cart Backend.
Local Open Scope checkout_scope.

(** The state of the screen ([useAuth], [useState]). *)
Record Screen : Type := mkScreen {
  st_user : option string;
  st_storeId : option string;
  st_cart : cart;
  st_products : list Product;
  st_loading : bool;
  st_toasts : list toast;
}.

Definition setCart (c : cart) (s : Screen) : Screen :=
  {| st_user := st_user s; st_storeId := st_storeId s; st_cart := c;
     st_products := st_products s; st_loading := st_loading s;
     st_toasts := st_toasts s |}.

Definition setProducts (l : list Product) (s : Screen) : Screen :=
  {| st_user := st_user s; st_storeId := st_storeId s; st_cart := st_cart s;
     st_products := l; st_loading := st_loading s;
     st_toasts := st_toasts s |}.

Definition setLoading (b : bool) (s : Screen) : Screen :=
  {| st_user := st_user s; st_storeId := st_storeId s; st_cart := st_cart s;
     st_products := st_products s; st_loading := b;
     st_toasts := st_toasts s |}.

Definition show (t : toast) (s : Screen) : Screen :=
  {| st_user := st_user s; st_storeId := st_storeId s; st_cart := st_cart s;
     st_products := st_products s; st_loading := st_loading s;
     st_toasts := st_toasts s ++ [t] |}.

(** [`RCP-${Date.now()}`] *)
Definition receiptNumber (now : Z) : string := "RCP-" +:+ pretty now.

(** The object inserted into [sales]. *)
Definition saleRow (storeId cashier : string) (c : cart) (now : Z)
  : SaleInsert :=
  let t := calculateTotals c in
  {| receipt_number := receiptNumber now;
     store_id := storeId;
     cashier_id := cashier;
     subtotal := Cart.subtotal t;
     vat_amount := vatAmount t;
     total_amount := total t;
     status := Some completed |}.

(** [cart.map(item => ({ sale_id: sale.id, ... }))] *)
Definition saleItems (sale : Sale) (c : cart) : list SaleItem :=
  map (fun item =>
         {| si_sale_id := sale_id sale;
            si_product_id := id item;
            si_product_name := name item;
            si_quantity := quantity item;
            si_unit_price := selling_price item;
            si_vat_rate := vat_rate item;
            si_line_total := line_total item |}) c.

(** The object inserted into [payments]. *)
Definition paymentRow (sale : Sale) (paymentMethod : payment_method) (c : cart)
  : Payment :=
  {| pay_sale_id := sale_id sale;
     pay_payment_method := paymentMethod;
     pay_amount := total (calculateTotals c) |}.

(** [user!.id]: a TypeError when nobody is signed in. *)
Definition userId (u : option string) : M string :=
  match u with
  | Some i => ret i
  | None => throw TypeError
  end.

(** The update of one product, its answer dropped. *)
Definition decrement (item : CartItem) : M unit :=
  _ <- update_stock (id item) (stock_quantity item - quantity item) ;;
  ret tt.

(** [for (const item of cart) await ...update(...)] *)
Definition decrements (c : cart) : M unit := forEach c decrement.

(** The body of the [try] up to the stock updates. *)
Definition writes (s : Screen) (storeId : string)
  (paymentMethod : payment_method) (now : Z) : M unit :=
  let c := st_cart s in
  cashier <- userId (st_user s) ;;
  r <- insert_sale (saleRow storeId cashier c now) ;;
  sale <- orThrow r ;;
  r <- insert_sale_items (saleItems sale c) ;;
  _ <- orThrow r ;;
  r <- insert_payment (paymentRow sale paymentMethod c) ;;
  _ <- orThrow r ;;
  decrements c.

(** The rows of the refresh, as the screen's [Product]s.  The ORDER BY of
    the query is left out: nothing below depends on the order in which the
    product buttons are shown. *)
Definition storeProducts (storeId : string) (d : DB) : list Product :=
  map (fun p =>
         {| p_id := pr_id p; p_name := pr_name p;
            p_selling_price := pr_selling_price p;
            p_stock_quantity := pr_stock_quantity p;
            p_vat_rate := pr_vat_rate p |})
    (filter (active_in storeId) (products d)).

Definition sale_completed (now : Z) : toast :=
  ToastSuccess ("Sale completed! Receipt: " +:+ receiptNumber now).

(** [handleCheckout] *)
Definition handleCheckout (paymentMethod : payment_method) (now : Z)
  (s : Screen) (w : World) : Screen * World :=
  if decide (length (st_cart s) = 0%nat) then
    (show (ToastError "Cart is empty") s, w)
  else
    match truthy (st_storeId s) with
    | None => (show (ToastError "Store not configured") s, w)
    | Some storeId =>
        let s0 := setLoading true s in
        match writes s0 storeId paymentMethod now w with
        | (Return _, w1) =>
            let s1 := setCart [] (show (sale_completed now) s0) in
            match select (SelectProducts storeId) (storeProducts storeId) w1 with
            | (Return (Data productsData), w2) =>
                (setLoading false (setProducts productsData s1), w2)
            | (_, w2) => (setLoading false s1, w2)
            end
        | (Throw _, w1) =>
            (setLoading false (show (ToastError "Failed to complete sale") s0), w1)
        end
    end.

(** The call of [decrement]. *)
Definition decrement_call (item : CartItem) : Call :=
  UpdateStock (id item) (stock_quantity item - quantity item).

(** The products table after the stock updates of the items, each with
    whether the backend applied it, in order, all at the instant [now]. *)
Definition decremented (now : Z) (l : list (CartItem * bool))
  (ps : list ProductRow) : list ProductRow :=
  fold_left
    (fun ps (e : CartItem * bool) =>
       if snd e
       then set_stock (id (fst e)) (stock_quantity (fst e) - quantity (fst e))
              now ps
       else ps)
    l ps.

(** The calls a checkout issued, with their results. *)
Definition events (paymentMethod : payment_method) (now : Z)
  (s : Screen) (w : World) : list Event :=
  drop (length (trace w)) (trace (snd (handleCheckout paymentMethod now s w))).

(** The databases a checkout goes through. *)
Definition db_sale (w : World) (row : SaleInsert) : DB :=
  add_sale (db w) (stored w row).

Definition db_items (w : World) (row : SaleInsert) (c : cart) : DB :=
  add_sale_items (db_sale w row) (saleItems (stored w row) c).

Definition db_payment (w : World) (row : SaleInsert) (c : cart)
  (paymentMethod : payment_method) : DB :=
  add_payment (db_items w row c) (paymentRow (stored w row) paymentMethod c).

Definition failed : toast := ToastError "Failed to complete sale".

(** What a checkout that reaches the backend can come to: the calls issued
    with their results, the database and the message shown. *)
Inductive result_of (paymentMethod : payment_method) (now : Z) (s : Screen)
  (w : World) (store cashier : string)
  : list Event -> DB -> toast -> Prop :=
| sale_refused :
    let row := saleRow store cashier (st_cart s) now in
    result_of paymentMethod now s w store cashier
      [(InsertSale row, false)] (db w) failed
| items_refused :
    let row := saleRow store cashier (st_cart s) now in
    let items := saleItems (stored w row) (st_cart s) in
    receipt_number row ∉ receipts (db w) ->
    result_of paymentMethod now s w store cashier
      [(InsertSale row, true); (InsertSaleItems items, false)]
      (db_sale w row) failed
| payment_refused :
    let row := saleRow store cashier (st_cart s) now in
    let items := saleItems (stored w row) (st_cart s) in
    let pay := paymentRow (stored w row) paymentMethod (st_cart s) in
    receipt_number row ∉ receipts (db w) ->
    result_of paymentMethod now s w store cashier
      [(InsertSale row, true); (InsertSaleItems items, true);
       (InsertPayment pay, false)]
      (db_items w row (st_cart s)) failed
| all_inserted oks ok :
    let row := saleRow store cashier (st_cart s) now in
    let items := saleItems (stored w row) (st_cart s) in
    let pay := paymentRow (stored w row) paymentMethod (st_cart s) in
    receipt_number row ∉ receipts (db w) ->
    length oks = length (st_cart s) ->
    result_of paymentMethod now s w store cashier
      ([(InsertSale row, true); (InsertSaleItems items, true);
        (InsertPayment pay, true)]
       ++ zip (map decrement_call (st_cart s)) oks
       ++ [(SelectProducts store, ok)])
      (set_products (db_payment w row (st_cart s) paymentMethod)
         (decremented (clock w) (zip (st_cart s) oks) (products (db w))))
      (sale_completed now).

(** The three inserts among the calls. *)
Definition is_insert (c : Call) : bool :=
  match c with
  | InsertSale _ | InsertSaleItems _ | InsertPayment _ => true
  | _ => false
  end.

Definition inserts (evs : list Event) : list Event :=
  List.filter (fun e => is_insert (fst e)) evs.

(** "Each step starts only after the previous one succeeded": every call
    that is followed by another one was applied. *)
Fixpoint gated (evs : list Event) : bool :=
  match evs with
  | [] => true
  | e :: rest =>
      match rest with
      | [] => true
      | _ :: _ => snd e && gated rest
      end
  end.

(** The row of a product after the stock updates of the items. *)
Definition row_after (now : Z) (l : list (CartItem * bool)) (p : ProductRow)
  : ProductRow :=
  fold_left
    (fun p (e : CartItem * bool) =>
       if snd e
       then if decide (pr_id p = id (fst e))
            then touched
                   (with_stock p (stock_quantity (fst e) - quantity (fst e)))
                   now
            else p
       else p)
    l p.

(** What the stock updates of a checkout with the calls [evs] do to a
    product row [p], giving [p']: the row of a product that is not in the
    cart is left as it is; so is the row of a product of the cart whose
    update was not applied; the row of a product whose update was applied
    has the stock held by the cart item minus the quantity sold, and
    otherwise differs at most in [updated_at]. *)
Definition decrement_of (c : cart) (evs : list Event) (p p' : ProductRow)
  : Prop :=
  match List.find (fun item => bool_decide (id item = pr_id p)) c with
  | None => p' = p
  | Some item =>
      (In (UpdateStock (id item) (stock_quantity item - quantity item), true)
          evs ->
       pr_stock_quantity p' = stock_quantity item - quantity item /\
       touched (with_stock p' 0) 0 = touched (with_stock p 0) 0) /\
      (In (UpdateStock (id item) (stock_quantity item - quantity item), false)
          evs ->
       p' = p)
  end.

(** A checkout as the database sees it: some screen, at some instant, with
    some behaviour of the backend. *)
Record Request : Type := mkRequest {
  rq_method : payment_method;
  rq_now : Z;
  rq_screen : Screen;
  rq_faults : list bool;
  rq_clock : Z;
  rq_session : option string;
}.

Definition serve (d : DB) (r : Request) : DB :=
  db (snd (handleCheckout (rq_method r) (rq_now r) (rq_screen r)
             {| db := d; trace := []; faults := rq_faults r;
                clock := rq_clock r; session := rq_session r |})).

(** One checkout after the other, from any terminals. *)
Definition serveAll (d : DB) (l : list Request) : DB := fold_left serve l d.

End POS.

(** ** The dashboard ([Dashboard.tsx], lines 7-72) *)

Module Dashboard.
Import Backend.

Record Stats : Type := mkStats {
  todaySales : number;
  todayTransactions : nat;
  lowStock : nat;
  totalProducts : nat;
}.

(** The state of the page. *)
Record View : Type := mkView {
  stats : Stats;
  loading : bool;
}.

Definition day : Z := 86400000.

(** [const startOfDay = new Date(); startOfDay.setHours(0, 0, 0, 0)]: the
    last local midnight, for a local time that is [tz] milliseconds ahead
    of UTC. *)
Definition startOfDay (tz now : Z) : Z := now - (now + tz) `mod` day.

(** The rows of
    [.eq("store_id", store).eq("status", "completed").gte("created_at", since)]. *)
Definition completed_since (store : string) (since : Z) (s : Sale) : Prop :=
  store_id (sale_data s) = store /\
  status (sale_data s) = Some completed /\
  since <= created_at s.

Global Instance completed_since_dec store since s :
  Decision (completed_since store since s).
Proof. unfold completed_since. apply _. Defined.

(** [select("total_amount")] of those rows. *)
Definition todaySalesRows (store : string) (since : Z) (d : DB) : list number :=
  map (fun s => total_amount (sale_data s))
    (filter (completed_since store since) (sales d)).

(** [select("stock_quantity, reorder_level")] of the active products of the
    store. *)
Definition inventoryRows (store : string) (d : DB) : list (Z * option Z) :=
  map (fun p => (pr_stock_quantity p, pr_reorder_level p))
    (filter (active_in store) (products d)).

(** [select("store_id").eq("id", user.id)] *)
Definition profileRows (user_id : string) (d : DB) : list (option string) :=
  map pf_store_id (filter (fun p => pf_id p = user_id) (profiles d)).

(** [p.stock_quantity <= p.reorder_level], where a null level counts as 0
    in the comparison. *)
Definition low (p : Z * option Z) : Prop := fst p <= default 0 (snd p).

Global Instance low_dec p : Decision (low p).
Proof. unfold low. apply _. Defined.

(** [data?.reduce((sum, sale) => sum + Number(sale.total_amount), 0) || 0] *)
Definition totalSales (data : option (list number)) : number :=
  match data with
  | Some rows => or_zero (fold_left (fun sum a => (sum + a)%Qc) rows 0%Qc)
  | None => 0%Qc
  end.

(** [data?.length || 0] *)
Definition count {A} (data : option (list A)) : nat :=
  match data with
  | Some rows => length rows
  | None => 0%nat
  end.

(** [data?.filter(p => p.stock_quantity <= p.reorder_level).length || 0] *)
Definition lowStockCount (data : option (list (Z * option Z))) : nat :=
  match data with
  | Some rows => length (filter low rows)
  | None => 0%nat
  end.

(** [const { data } = await ...]: null when the call failed. *)
Definition dataOf {A} (r : outcome (response A)) : option A :=
  match r with
  | Return (Data a) => Some a
  | _ => None
  end.

(** [fetchDashboardData] *)
Definition fetchDashboardData (user : option string) (tz now : Z)
  (v : View) (w : World) : View * World :=
  match user with
  | None => (v, w)
  | Some user_id =>
      let (r, w1) := select_single (SelectProfile user_id) (profileRows user_id) w in
      match truthy (dataOf r ≫= (fun store_id => store_id)) with
      | Some store =>
          let since := startOfDay tz now in
          let (r, w2) :=
            select (SelectTodaySales store since) (todaySalesRows store since) w1 in
          let todaySales := dataOf r in
          let (r, w3) := select (SelectInventory store) (inventoryRows store) w2 in
          let products := dataOf r in
          ({| stats := {| todaySales := totalSales todaySales;
                          todayTransactions := count todaySales;
                          lowStock := lowStockCount products;
                          totalProducts := count products |};
              loading := false |}, w3)
      | _ => ({| stats := stats v; loading := false |}, w1)
      end
  end.

End Dashboard.

(** ** A store to run the code on *)

Module Demo.
Import Cart Backend POS.

Definition soda : Product :=
  {| p_id := "p1"; p_name := "Soda"; p_selling_price := of_Z 116;
     p_stock_quantity := 10; p_vat_rate := of_Z 16 |}.

Definition milk : Product :=
  {| p_id := "p2"; p_name := "Milk"; p_selling_price := of_Z 60;
     p_stock_quantity := 5; p_vat_rate := of_Z 0 |}.

(** Two sodas and one milk. *)
Definition basket : cart :=
  performAll [] [AddToCart soda; AddToCart milk; AddToCart soda].

Definition shelf : DB :=
  {| products :=
       [ {| pr_id := "p1"; pr_name := "Soda"; pr_store_id := "s1";
            pr_selling_price := of_Z 116; pr_stock_quantity := 10;
            pr_reorder_level := Some 12; pr_vat_rate := of_Z 16;
            pr_active := Some true; pr_updated_at := 0 |};
         {| pr_id := "p2"; pr_name := "Milk"; pr_store_id := "s1";
            pr_selling_price := of_Z 60; pr_stock_quantity := 5;
            pr_reorder_level := None; pr_vat_rate := of_Z 0;
            pr_active := Some true; pr_updated_at := 0 |};
         {| pr_id := "p3"; pr_name := "Bread"; pr_store_id := "s1";
            pr_selling_price := of_Z 55; pr_stock_quantity := 0;
            pr_reorder_level := None; pr_vat_rate := of_Z 0;
            pr_active := Some true; pr_updated_at := 0 |} ];
     sales := [];
     sale_items := [];
     payments := [];
     profiles := [ {| pf_id := "u1"; pf_store_id := Some "s1" |};
                   {| pf_id := "u3"; pf_store_id := Some "s1" |} ];
     user_roles := [ ("u1", role_manager); ("u3", role_cashier) ];
     next_uuid := 0 |}.

(** The backend with the oracle [flags], for the manager "u1". *)
Definition backend (flags : list bool) : World :=
  {| db := shelf; trace := []; faults := flags; clock := 5000;
     session := Some "u1" |}.

Definition till : Screen :=
  {| st_user := Some "u1"; st_storeId := Some "s1"; st_cart := basket;
     st_products := [soda; milk]; st_loading := false; st_toasts := [] |}.

(** The same screen and backend for the cashier "u3", who is neither
    manager nor admin. *)
Definition cashier_till : Screen :=
  {| st_user := Some "u3"; st_storeId := Some "s1"; st_cart := basket;
     st_products := [soda; milk]; st_loading := false; st_toasts := [] |}.

Definition cashier_backend : World :=
  {| db := shelf; trace := []; faults := []; clock := 5000;
     session := Some "u3" |}.

(** Two checkouts of the same basket in the same millisecond. *)
Definition rush : list Request :=
  [ {| rq_method := cash; rq_now := 1000; rq_screen := till;
       rq_faults := []; rq_clock := 5000; rq_session := Some "u1" |};
    {| rq_method := mpesa; rq_now := 1000; rq_screen := till;
       rq_faults := []; rq_clock := 5001; rq_session := Some "u1" |} ].

(** Ten in the morning in Nairobi (three hours ahead of UTC), on some day. *)
Definition nairobi : Z := 3 * 3600000.
Definition morning : Z := 20000 * Dashboard.day + 7 * 3600000.

Definition sale_at (receipt store : string) (at_ : Z) (amount : Z)
  (st : option sale_status) : Sale :=
  {| sale_id := receipt; created_at := at_;
     sale_data :=
       {| receipt_number := receipt; store_id := store; cashier_id := "u1";
          subtotal := of_Z amount; vat_amount := of_Z 0;
          total_amount := of_Z amount; status := st |} |}.

(** The shelf with four sales on the books: one from one in the morning
    local time, one from the evening before, one voided, one of another
    store. *)
Definition books : DB :=
  {| products := products shelf;
     sales :=
       [ sale_at "RCP-1" "s1" (morning - 9 * 3600000) 292 (Some completed);
         sale_at "RCP-2" "s1" (morning - 11 * 3600000) 60 (Some completed);
         sale_at "RCP-3" "s1" (morning - 3600000) 116 (Some voided);
         sale_at "RCP-4" "s2" (morning - 3600000) 55 (Some completed) ];
     sale_items := [];
     payments := [];
     profiles := profiles shelf;
     user_roles := user_roles shelf;
     next_uuid := 4 |}.

Definition office : World :=
  {| db := books; trace := []; faults := []; clock := morning;
     session := Some "u1" |}.

Definition blank : Dashboard.View :=
  {| Dashboard.stats :=
       {| Dashboard.todaySales := 0%Qc; Dashboard.todayTransactions := 0;
          Dashboard.lowStock := 0; Dashboard.totalProducts := 0 |};
     Dashboard.loading := true |}.

End Demo.

(** ** The start of the point-of-sale screen ([POS.tsx], lines 34-61 and
       200-202) and the sign-up trigger of the migration *)

Module Startup.
Import Cart Backend POS.

Definition setStoreId (store : string) (s : Screen) : Screen :=
  {| st_user := st_user s; st_storeId := Some store; st_cart := st_cart s;
     st_products := st_products s; st_loading := st_loading s;
     st_toasts := st_toasts s |}.

(** [fetchStoreAndProducts]: the store of the profile of the user, then the
    active products of that store. *)
Definition fetchStoreAndProducts (s : Screen) (w : World) : Screen * World :=
  match st_user s with
  | None => (s, w)
  | Some user_id =>
      let (r, w1) :=
        select_single (SelectProfile user_id) (Dashboard.profileRows user_id) w in
      match truthy (Dashboard.dataOf r ≫= (fun store_id => store_id)) with
      | Some store =>
          let s1 := setStoreId store s in
          let (r, w2) :=
            select (SelectProducts store) (storeProducts store) w1 in
          match Dashboard.dataOf r with
          | Some productsData => (setProducts productsData s1, w2)
          | None => (s1, w2)
          end
      | None => (s, w1)
      end
  end.

(** [public.handle_new_user], fired by the insert of a user: a profile with
    the id of the user and no store; the insert fails when the primary key
    is taken. *)
Definition handle_new_user (d : DB) (new_id : string) : option DB :=
  if bool_decide (new_id ∈ map pf_id (profiles d)) then None
  else
    Some {| products := products d; sales := sales d;
            sale_items := sale_items d; payments := payments d;
            profiles := profiles d ++ [ {| pf_id := new_id; pf_store_id := None |} ];
            user_roles := user_roles d;
            next_uuid := next_uuid d |}.

(** [s.includes(t)]: [t] occurs in [s]. *)
Fixpoint includes (s t : string) : bool :=
  String.prefix t s ||
  match s with
  | EmptyString => false
  | String _ s' => includes s' t
  end.

Section Search.

(** [String.prototype.toLowerCase], not defined here. *)
Variable toLowerCase : string -> string.

(** [products.filter(p => p.name.toLowerCase().includes(searchQuery.toLowerCase()))] *)
Definition filteredProducts (products : list Product) (searchQuery : string)
  : list Product :=
  List.filter
    (fun p => includes (toLowerCase (p_name p)) (toLowerCase searchQuery))
    products.

End Search.

(** The letters A to Z in lower case, every other character as it is. *)
Definition lower_ascii (a : Ascii.ascii) : Ascii.ascii :=
  let n := Ascii.nat_of_ascii a in
  if ((65 <=? n) && (n <=? 90))%nat then Ascii.ascii_of_nat (n + 32) else a.

Fixpoint lower (s : string) : string :=
  match s with
  | EmptyString => EmptyString
  | String a s' => String (lower_ascii a) (lower s')
  end.

End Startup.

(** ** What the checkout keeps and what it does not look at *)

Module Ledger.
Import Cart Backend POS.

(** Every sale_items row and every payments row points to a sale that is in
    the sales table, the payment with the amount of that sale. *)
Definition referenced (d : DB) : Prop :=
  Forall (fun i => si_sale_id i ∈ map sale_id (sales d)) (sale_items d) /\
  Forall (fun p => exists sale,
              sale ∈ sales d /\ sale_id sale = pay_sale_id p /\
              total_amount (sale_data sale) = pay_amount p)
    (payments d).

(** The columns of a product that a stock update leaves alone: all but
    [stock_quantity] and [updated_at]. *)
Definition unstocked (p : ProductRow) : ProductRow :=
  touched (with_stock p 0) 0.

(** Two states of the backend that list the same products, in whatever
    state (stock, price, name and so on), and agree on everything else. *)
Definition same_but_product_columns (w1 w2 : World) : Prop :=
  map pr_id (products (db w1)) = map pr_id (products (db w2)) /\
  sales (db w1) = sales (db w2) /\
  sale_items (db w1) = sale_items (db w2) /\
  payments (db w1) = payments (db w2) /\
  profiles (db w1) = profiles (db w2) /\
  user_roles (db w1) = user_roles (db w2) /\
  next_uuid (db w1) = next_uuid (db w2) /\
  trace w1 = trace w2 /\
  faults w1 = faults w2 /\
  clock w1 = clock w2 /\
  session w1 = session w2.

(** A piece of the handler that looks at no column of the products. *)
Definition oblivious {A} (m : M A) : Prop :=
  forall w1 w2,
    same_but_product_columns w1 w2 ->
    fst (m w1) = fst (m w2) /\
    same_but_product_columns (snd (m w1)) (snd (m w2)).

End Ledger.

(** ** Facts about the cart *)

Section CartFacts.
Import Cart.

Lemma of_Z_1 : of_Z 1 = 1%Qc.
Proof. apply Qc_is_canon. reflexivity. Qed.

(** A [reduce] that adds [f item] to the running sum is the sum of the
    [f item]s added to its start value. *)
Lemma reduce_sum {A} (f : A -> number) (l : list A) (a : number) :
  fold_left (fun sum x => (sum + f x)%Qc) l a = (a + sum_of (map f l))%Qc.
Proof.
  revert a. induction l as [|x l IH]; intros a; simpl.
  - ring.
  - rewrite IH. ring.
Qed.

Lemma NoDup_map_filter {A B} (f : A -> B) (P : A -> Prop)
  `{!forall x, Decision (P x)} (l : list A) :
  NoDup (map f l) -> NoDup (map f (filter P l)).
Proof.
  induction l as [|x l IH]; simpl; intros Hnd; [constructor|].
  apply NoDup_cons in Hnd as [Hx Hl].
  rewrite filter_cons. destruct (decide (P x)); simpl; [|auto].
  apply NoDup_cons. split; [|auto].
  intros Hin. apply Hx.
  apply list_elem_of_In, in_map_iff in Hin as (y & Hy & Hin).
  apply list_elem_of_In, in_map_iff. exists y. split; [done|].
  apply list_elem_of_In. apply list_elem_of_In in Hin.
  by apply list_elem_of_filter in Hin as [_ ?].
Qed.

Lemma with_quantity_ok item q : 0 < q -> item_ok (with_quantity item q).
Proof. intros Hq. split; simpl; [lia|done]. Qed.

Lemma newItem_ok product : item_ok (newItem product).
Proof.
  split; simpl; [lia|]. rewrite of_Z_1. ring.
Qed.

Lemma updateQuantity_ids c productId newQuantity :
  map id
    (map (fun item =>
            if decide (id item = productId)
            then with_quantity item (Z.max 0 newQuantity)
            else item) c) = map id c.
Proof.
  rewrite map_map. apply map_ext. intros item.
  by destruct (decide (id item = productId)).
Qed.

Lemma updateQuantity_well_formed c productId newQuantity :
  well_formed c -> well_formed (updateQuantity c productId newQuantity).
Proof.
  intros [Hok Hnd]. split.
  - apply Forall_forall. intros item Hin.
    apply list_elem_of_filter in Hin as [Hpos Hin].
    apply list_elem_of_In, in_map_iff in Hin as (old & <- & Hold).
    destruct (decide (id old = productId)).
    + apply with_quantity_ok. exact Hpos.
    + rewrite Forall_forall in Hok. apply Hok. by apply list_elem_of_In.
  - unfold updateQuantity. apply NoDup_map_filter.
    by rewrite updateQuantity_ids.
Qed.

Lemma removeFromCart_well_formed c productId :
  well_formed c -> well_formed (removeFromCart c productId).
Proof.
  intros [Hok Hnd]. split.
  - apply Forall_forall. intros item Hin.
    apply list_elem_of_filter in Hin as [_ Hin].
    rewrite Forall_forall in Hok. by apply Hok.
  - by apply NoDup_map_filter.
Qed.

(** [find] by product id: what it finds is in the cart and has that id;
    when it finds nothing the id is not in the cart. *)
Lemma find_id_Some c productId item :
  List.find (fun item => bool_decide (id item = productId)) c = Some item ->
  In item c /\ id item = productId.
Proof.
  intros H. apply find_some in H as [Hin Hid].
  split; [done|]. by apply bool_decide_eq_true in Hid.
Qed.

Lemma find_id_None c productId :
  List.find (fun item => bool_decide (id item = productId)) c = None ->
  productId ∉ map id c.
Proof.
  intros H Hin. apply list_elem_of_In, in_map_iff in Hin as (item & Hid & Hin).
  apply (find_none _ _ H) in Hin. simpl in Hin.
  by apply bool_decide_eq_false in Hin.
Qed.

Lemma addToCart_well_formed c product :
  well_formed c -> well_formed (fst (addToCart c product)).
Proof.
  intros Hwf. unfold addToCart.
  destruct (List.find _ c) as [existingItem|] eqn:Hfind.
  - destruct (decide (p_stock_quantity product <= quantity existingItem)); simpl.
    + exact Hwf.
    + by apply updateQuantity_well_formed.
  - simpl. destruct Hwf as [Hok Hnd]. split.
    + apply Forall_app. split; [done|].
      apply Forall_cons. split; [apply newItem_ok|constructor].
    + rewrite map_app. simpl. apply NoDup_app. split; [done|].
      split; [|apply NoDup_singleton].
      intros x Hx Hx'. apply list_elem_of_singleton in Hx'. subst x.
      by apply find_id_None in Hfind.
Qed.

Lemma perform_well_formed c a : well_formed c -> well_formed (perform c a).
Proof.
  destruct a; simpl.
  - apply addToCart_well_formed.
  - apply updateQuantity_well_formed.
  - apply removeFromCart_well_formed.
Qed.

Lemma performAll_well_formed l c :
  well_formed c -> well_formed (performAll c l).
Proof.
  revert c. induction l as [|a l IH]; intros c Hwf; simpl; [done|].
  apply IH. by apply perform_well_formed.
Qed.

Lemma empty_well_formed : well_formed [].
Proof. split; constructor. Qed.


(** An update that asks for a positive quantity of the product of one item
    of a well-formed cart changes that item and nothing else. *)
Lemma updateQuantity_others c productId q :
  Forall item_ok c -> productId ∉ map id c ->
  updateQuantity c productId q = c.
Proof.
  unfold updateQuantity.
  induction c as [|item c IH]; simpl; intros Hok Hnot; [done|].
  apply Forall_cons in Hok as [[Hq _] Hok].
  apply not_elem_of_cons in Hnot as [Hne Hnot].
  destruct (decide (id item = productId)) as [Heq|_]; [by destruct Hne|].
  rewrite filter_cons_True by lia. f_equal. by apply IH.
Qed.

Lemma updateQuantity_middle pre item post q :
  well_formed (pre ++ item :: post) -> 0 < q ->
  updateQuantity (pre ++ item :: post) (id item) q
  = pre ++ with_quantity item q :: post.
Proof.
  intros [Hok Hnd] Hq.
  apply Forall_app in Hok as [Hpre Hpost].
  apply Forall_cons in Hpost as [_ Hpost].
  rewrite map_app in Hnd. simpl in Hnd.
  apply NoDup_app in Hnd as (_ & Hdisj & Hnd).
  apply NoDup_cons in Hnd as [Hpost_id _].
  assert (Hpre_id : id item ∉ map id pre).
  { intros Hin. apply (Hdisj _ Hin). left. }
  pose proof (updateQuantity_others pre (id item) q Hpre Hpre_id) as Epre.
  pose proof (updateQuantity_others post (id item) q Hpost Hpost_id) as Epost.
  unfold updateQuantity in *.
  rewrite map_app, filter_app, Epre. f_equal. simpl.
  destruct (decide (id item = id item)) as [_|Hne]; [|done].
  rewrite filter_cons_True by (simpl; lia).
  f_equal; [by rewrite Z.max_r by lia|exact Epost].
Qed.

Lemma find_middle pre item post :
  NoDup (map id (pre ++ item :: post)) ->
  List.find (fun i => bool_decide (id i = id item)) (pre ++ item :: post)
  = Some item.
Proof.
  induction pre as [|x pre IH]; simpl; intros Hnd.
  - by rewrite bool_decide_eq_true_2.
  - apply NoDup_cons in Hnd as [Hx Hnd].
    rewrite bool_decide_eq_false_2; [by apply IH|].
    intros Heq. apply Hx. rewrite Heq, map_app. simpl.
    apply elem_of_app. right. left.
Qed.

End CartFacts.

(** C8. Starting from the empty cart, whatever handlers run ([addToCart],
    [updateQuantity], [removeFromCart], in any order and with any
    arguments), the cart stays well formed: every item has a quantity of at
    least 1, a line total equal to its selling price times its quantity,
    and no two items are of the same product. *)
Theorem cart_well_formed_invariant (l : list Cart.action) :
  Cart.well_formed (Cart.performAll [] l).
Proof. apply performAll_well_formed, empty_well_formed. Qed.

(** C10. [addToCart] on a well-formed cart.  When the product is in the
    cart, as [item]: with the quantity of [item] at or above the stock of
    the product, the error "Not enough stock available" is shown and the
    cart is unchanged; below it, the cart is the same but for [item], which
    is replaced in place by the item with the quantity of [item] plus 1,
    the line total of that quantity and every other field of [item], and
    the new quantity is not above the stock of the product.  When the
    product is not in the cart, the cart gets one item more, at its end,
    with the fields of the product, the quantity 1 and the selling price as
    line total. *)
Theorem addToCart_stock_check (c : Cart.cart) (product : Cart.Product) :
  Cart.well_formed c ->
  (forall pre item post,
      c = pre ++ item :: post -> Cart.id item = Cart.p_id product ->
      (Cart.p_stock_quantity product <= Cart.quantity item ->
       Cart.addToCart c product
       = (c, Some (Cart.ToastError "Not enough stock available"))) /\
      (Cart.quantity item < Cart.p_stock_quantity product ->
       let item' :=
         {| Cart.id := Cart.id item;
            Cart.name := Cart.name item;
            Cart.selling_price := Cart.selling_price item;
            Cart.stock_quantity := Cart.stock_quantity item;
            Cart.vat_rate := Cart.vat_rate item;
            Cart.quantity := Cart.quantity item + 1;
            Cart.line_total :=
              (Cart.selling_price item * of_Z (Cart.quantity item + 1))%Qc |} in
       Cart.addToCart c product = (pre ++ item' :: post, None) /\
       Cart.quantity item' = Cart.quantity item + 1 /\
       Cart.quantity item' <= Cart.p_stock_quantity product)) /\
  (Cart.p_id product ∉ map Cart.id c ->
   Cart.addToCart c product
   = (c ++ [ {| Cart.id := Cart.p_id product;
                Cart.name := Cart.p_name product;
                Cart.selling_price := Cart.p_selling_price product;
                Cart.stock_quantity := Cart.p_stock_quantity product;
                Cart.vat_rate := Cart.p_vat_rate product;
                Cart.quantity := 1;
                Cart.line_total := Cart.p_selling_price product |} ],
      None)).
Proof.
  intros Hwf. split.
  - intros pre item post -> Hid. unfold Cart.addToCart.
    rewrite <- Hid, find_middle by apply Hwf.
    destruct (decide (Cart.p_stock_quantity product <= Cart.quantity item));
      (split; [intros Hle|intros Hlt]); try lia; [done|].
    cbv zeta. split; [|simpl; lia].
    assert (1 <= Cart.quantity item) as Hq.
    { destruct Hwf as [Hok _]. apply Forall_app in Hok as [_ Hok].
      apply Forall_cons in Hok as [[Hq _] _]. exact Hq. }
    rewrite updateQuantity_middle by (done || lia). reflexivity.
  - intros Hnot. unfold Cart.addToCart.
    destruct (List.find _ c) as [existingItem|] eqn:Hfind; [|done].
    apply find_id_Some in Hfind as [Hin Hid]. destruct Hnot.
    apply list_elem_of_In, in_map_iff. by exists existingItem.
Qed.

(** C9. The total of [calculateTotals] is its subtotal, the sum of the line
    totals of the cart: the VAT amount is not added to it. *)
Theorem total_is_subtotal (c : Cart.cart) :
  Cart.total (Cart.calculateTotals c) = Cart.subtotal (Cart.calculateTotals c) /\
  Cart.total (Cart.calculateTotals c) = sum_of (map Cart.line_total c).
Proof.
  split; [reflexivity|]. simpl.
  rewrite (reduce_sum Cart.line_total). ring.
Qed.

(** ** Facts about the checkout *)

Section CheckoutFacts.
Import Cart Backend POS.

Lemma set_products_same d : set_products d (products d) = d.
Proof. by destruct d. Qed.

Lemma tail_drop {A} (l : list A) n : drop n (tail l) = drop (S n) l.
Proof. destruct l; simpl; [by rewrite drop_nil|done]. Qed.

(** One stock update: its answer is dropped, so it never throws. *)
Lemma decrement_run item w :
  let applied := negb (next_fault w) && manages_products w in
  decrement item w =
    (Return tt,
     answered w
       (if applied
        then set_products (db w)
               (set_stock (id item) (stock_quantity item - quantity item)
                  (clock w) (products (db w)))
        else db w)
       (decrement_call item) applied).
Proof.
  unfold decrement, bind, update_stock, ret.
  by destruct (next_fault w), (manages_products w).
Qed.

(** The stock updates never throw; they touch the products table only,
    log one call per item of the cart, in the order of the cart, and use up
    one flag of the oracle each. *)
Lemma decrements_run c : forall w,
  exists oks,
    length oks = length c /\
    decrements c w =
      (Return tt,
       {| db := set_products (db w)
                  (decremented (clock w) (zip c oks) (products (db w)));
          trace := trace w ++ zip (map decrement_call c) oks;
          faults := drop (length c) (faults w);
          clock := clock w;
          session := session w |}).
Proof.
  unfold decrements. induction c as [|item c IH]; intros w.
  - exists []. split; [done|]. unfold forEach, ret. simpl.
    rewrite set_products_same, app_nil_r. by destruct w.
  - simpl. unfold bind at 1. rewrite decrement_run.
    match goal with
    | |- context [forEach c decrement ?w0] =>
        destruct (IH w0) as (oks & Hlen & ->)
    end.
    exists (negb (next_fault w) && manages_products w :: oks).
    split; [simpl; lia|]. simpl.
    rewrite <- app_assoc, tail_drop.
    by destruct (negb (next_fault w) && manages_products w).
Qed.

Lemma truthy_Some s store :
  truthy s = Some store <-> s = Some store /\ store <> "".
Proof.
  unfold truthy. destruct s as [[|a s]|];
    (split; [intros H|intros [H Hne]]); simplify_eq; done.
Qed.

Lemma events_of_trace paymentMethod now s w evs :
  trace (snd (handleCheckout paymentMethod now s w)) = trace w ++ evs ->
  events paymentMethod now s w = evs.
Proof. unfold events. intros ->. apply drop_app_length. Qed.

(** A checkout that has nothing to sell, no store or no cashier calls
    nothing and shows an error. *)
Lemma checkout_not_started paymentMethod now s w :
  st_cart s = [] \/ truthy (st_storeId s) = None \/ st_user s = None ->
  events paymentMethod now s w = [] /\
  db (snd (handleCheckout paymentMethod now s w)) = db w /\
  exists msg,
    st_toasts (fst (handleCheckout paymentMethod now s w))
    = st_toasts s ++ [ToastError msg].
Proof.
  intros H.
  assert (snd (handleCheckout paymentMethod now s w) = w /\
          exists msg,
            st_toasts (fst (handleCheckout paymentMethod now s w))
            = st_toasts s ++ [ToastError msg]) as [Hw Ht].
  { unfold handleCheckout.
    destruct (decide (length (st_cart s) = 0%nat)) as [|Hne]; [simpl; eauto|].
    destruct (truthy (st_storeId s)) as [store|] eqn:Hstore; [|simpl; eauto].
    destruct (st_user s) as [cashier|] eqn:Huser.
    - destruct H as [Hc|[?|?]]; [|done..]. by rewrite Hc in Hne.
    - unfold writes, bind. simpl. rewrite Huser. simpl. eauto. }
  split; [|split; [by rewrite Hw|done]].
  apply events_of_trace. by rewrite Hw, app_nil_r.
Qed.

(** Every other checkout comes to one of the four results. *)
Lemma checkout_started paymentMethod now s w store cashier :
  st_cart s <> [] -> truthy (st_storeId s) = Some store ->
  st_user s = Some cashier ->
  exists evs d t,
    result_of paymentMethod now s w store cashier evs d t /\
    events paymentMethod now s w = evs /\
    db (snd (handleCheckout paymentMethod now s w)) = d /\
    st_toasts (fst (handleCheckout paymentMethod now s w)) = st_toasts s ++ [t].
Proof.
  intros Hcart Hstore Huser.
  assert (exists evs d t,
    result_of paymentMethod now s w store cashier evs d t /\
    trace (snd (handleCheckout paymentMethod now s w)) = trace w ++ evs /\
    db (snd (handleCheckout paymentMethod now s w)) = d /\
    st_toasts (fst (handleCheckout paymentMethod now s w)) = st_toasts s ++ [t])
    as (evs & d & t & Hr & Ht & Hd & Hs).
  2:{ exists evs, d, t. split_and!; try done. by apply events_of_trace. }
  unfold handleCheckout.
  destruct (decide (length (st_cart s) = 0%nat)) as [Hlen|_].
  { destruct (st_cart s); [done|discriminate]. }
  rewrite Hstore. unfold writes, bind. simpl. rewrite Huser. simpl.
  set (row := saleRow store cashier (st_cart s) now).
  unfold insert_sale.
  destruct (bool_decide _) eqn:Huniq.
  { do 3 eexists. split; [apply sale_refused|]. done. }
  apply bool_decide_eq_false in Huniq.
  destruct (next_fault w) eqn:Hf1.
  { do 3 eexists. split; [apply sale_refused|]. done. }
  simpl. unfold insert_sale_items.
  destruct (products_exist _ _) eqn:Hfk; simpl.
  2:{ do 3 eexists. split; [by apply items_refused|]. simpl.
      by rewrite <- app_assoc. }
  destruct (next_fault (answered _ _ _ _)) eqn:Hf2.
  { do 3 eexists. split; [by apply items_refused|]. simpl.
    by rewrite <- app_assoc. }
  simpl. unfold insert_payment.
  destruct (next_fault (answered (answered _ _ _ _) _ _ _)) eqn:Hf3.
  { do 3 eexists. split; [by apply payment_refused|]. simpl.
    by rewrite <- !app_assoc. }
  simpl.
  match goal with
  | |- context [decrements ?c ?w0] =>
      destruct (decrements_run c w0) as (oks & Hlen & ->)
  end.
  unfold select.
  match goal with
  | |- context [next_fault ?w0] => destruct (next_fault w0)
  end.
  - do 3 eexists. split; [by apply (all_inserted _ _ _ _ _ _ oks false)|].
    simpl. by rewrite <- !app_assoc.
  - do 3 eexists. split; [by apply (all_inserted _ _ _ _ _ _ oks true)|].
    simpl. by rewrite <- !app_assoc.
Qed.


(** Both cases at once. *)
Lemma checkout_result paymentMethod now s w :
  (events paymentMethod now s w = [] /\
   db (snd (handleCheckout paymentMethod now s w)) = db w /\
   exists msg,
     st_toasts (fst (handleCheckout paymentMethod now s w))
     = st_toasts s ++ [ToastError msg]) \/
  (exists store cashier evs d t,
     truthy (st_storeId s) = Some store /\ st_user s = Some cashier /\
     result_of paymentMethod now s w store cashier evs d t /\
     events paymentMethod now s w = evs /\
     db (snd (handleCheckout paymentMethod now s w)) = d /\
     st_toasts (fst (handleCheckout paymentMethod now s w))
     = st_toasts s ++ [t]).
Proof.
  destruct (st_cart s) as [|item c] eqn:Hc.
  { left. apply checkout_not_started. by left. }
  destruct (truthy (st_storeId s)) as [store|] eqn:Hstore.
  2:{ left. apply checkout_not_started. right. by left. }
  destruct (st_user s) as [cashier|] eqn:Huser.
  2:{ left. apply checkout_not_started. right. by right. }
  right. exists store, cashier.
  destruct (checkout_started paymentMethod now s w store cashier)
    as (evs & d & t & H); [by rewrite Hc|done..|].
  destruct H as (Hr & He & Hd & Ht).
  exists evs, d, t. split_and!; done.
Qed.

(** The stock updates and the refresh are not inserts. *)
Lemma inserts_after_payment c oks store ok :
  inserts (zip (map decrement_call c) oks ++ [(SelectProducts store, ok)]) = [].
Proof.
  unfold inserts. revert oks.
  induction c as [|item c IH]; intros [|o oks]; simpl; auto.
Qed.

Lemma in_inserts call ok evs :
  In (call, ok) evs -> is_insert call = true -> In (call, ok) (inserts evs).
Proof. intros Hin Hc. apply filter_In. by split. Qed.

(** The inserts of each result. *)
Lemma inserts_of_result paymentMethod now s w store cashier evs d t :
  result_of paymentMethod now s w store cashier evs d t ->
  inserts evs = take 3 evs.
Proof.
  destruct 1; try reflexivity.
  unfold inserts. rewrite List.filter_app. simpl.
  fold (inserts (zip (map decrement_call (st_cart s)) oks
                 ++ [(SelectProducts store, ok)])).
  by rewrite inserts_after_payment.
Qed.

(** A stock update among the calls of the updates is that of an item of
    the cart. *)
Lemma decrement_call_in c : forall (oks : list bool) item (ok : bool),
  In (decrement_call item, ok) (zip (map decrement_call c) oks) ->
  id item ∈ map id c.
Proof.
  induction c as [|x c IH]; intros [|o oks] item ok Hin; simpl in *;
    try done.
  destruct Hin as [E|Hin].
  - injection E as E _ _. rewrite E. left.
  - right. by apply (IH oks item ok).
Qed.

Lemma decremented_rows now l : forall ps,
  decremented now l ps = map (row_after now l) ps.
Proof.
  unfold decremented, row_after.
  induction l as [|[item ok] l IH]; intros ps; simpl.
  - by rewrite map_id.
  - rewrite IH. destruct ok; simpl; [|done].
    unfold set_stock. by rewrite map_map.
Qed.

Lemma row_after_id now l : forall p, pr_id (row_after now l p) = pr_id p.
Proof.
  unfold row_after.
  induction l as [|[item ok] l IH]; intros p; simpl; [done|].
  rewrite IH. destruct ok; simpl; [|done].
  by destruct (decide (pr_id p = id item)).
Qed.

(** With one item per product, each row ends as [decrement_of] says. *)
Lemma row_after_decrement now c : forall (oks : list bool) p,
  NoDup (map id c) -> length oks = length c ->
  decrement_of c (zip (map decrement_call c) oks) p
    (row_after now (zip c oks) p).
Proof.
  induction c as [|item c IH]; intros [|ok oks] p Hnd Hlen;
    try discriminate Hlen.
  { unfold decrement_of. reflexivity. }
  simpl in Hnd. apply NoDup_cons in Hnd as [Hitem Hnd].
  injection Hlen as Hlen.
  set (p1 := if ok
             then if decide (pr_id p = id item)
                  then touched
                         (with_stock p (stock_quantity item - quantity item))
                         now
                  else p
             else p).
  assert (row_after now (zip (item :: c) (ok :: oks)) p
          = row_after now (zip c oks) p1) as -> by reflexivity.
  assert (pr_id p1 = pr_id p) as Hid.
  { subst p1. destruct ok; [|done]. by destruct (decide (pr_id p = id item)). }
  pose proof (IH oks p1 Hnd Hlen) as Hrow.
  unfold decrement_of in *. rewrite Hid in Hrow. simpl.
  destruct (decide (id item = pr_id p)) as [Heq|Hne].
  - rewrite bool_decide_eq_true_2 by done.
    destruct (List.find _ c) as [other|] eqn:Hfind.
    { apply find_id_Some in Hfind as [Hin Hother]. destruct Hitem.
      apply list_elem_of_In, in_map_iff. exists other.
      split; [congruence|done]. }
    rewrite Hrow. subst p1. split.
    + intros [E|Hin].
      * injection E as ->.
        destruct (decide (pr_id p = id item)) as [_|?]; [|congruence].
        by split.
      * apply (decrement_call_in c oks item true) in Hin. by destruct Hitem.
    + intros [E|Hin].
      * by injection E as ->.
      * apply (decrement_call_in c oks item false) in Hin. by destruct Hitem.
  - rewrite bool_decide_eq_false_2 by done.
    assert (p1 = p) as ->.
    { subst p1. destruct ok; [|done].
      destruct (decide (pr_id p = id item)); [congruence|done]. }
    destruct (List.find _ c) as [other|] eqn:Hfind; [|exact Hrow].
    apply find_id_Some in Hfind as [Hin Hother].
    destruct Hrow as [Happlied Hrefused]. split.
    + intros [E|Hin']; [|by apply Happlied].
      injection E as E _ _. congruence.
    + intros [E|Hin']; [|by apply Hrefused].
      injection E as E _ _. congruence.
Qed.

Lemma Forall2_map_self {A B} (R : A -> B -> Prop) (f : A -> B) (l : list A) :
  (forall x, R x (f x)) -> Forall2 R l (map f l).
Proof. intros H. induction l; simpl; constructor; auto. Qed.

Lemma receipts_add_sale d sale :
  receipts (add_sale d sale) = receipts d ++ [receipt_number (sale_data sale)].
Proof. unfold receipts. simpl. by rewrite map_app. Qed.

(** A checkout leaves the receipt numbers alone or adds one that was not
    there. *)
Lemma checkout_receipts paymentMethod now s w :
  receipts (db (snd (handleCheckout paymentMethod now s w))) = receipts (db w) \/
  ((receiptNumber now ∉ receipts (db w)) /\
   receipts (db (snd (handleCheckout paymentMethod now s w)))
   = receipts (db w) ++ [receiptNumber now]).
Proof.
  destruct (checkout_result paymentMethod now s w)
    as [(_ & -> & _)|(store & cashier & evs & d & t & _ & _ & Hr & _ & -> & _)];
    [by left|].
  destruct Hr; [by left|right..]; (split; [exact H|]);
    unfold receipts; simpl; by rewrite map_app.
Qed.

Lemma serve_receipts d r : NoDup (receipts d) -> NoDup (receipts (serve d r)).
Proof.
  intros Hnd. unfold serve.
  match goal with
  | |- context [handleCheckout ?pm ?now ?s ?w] =>
      destruct (checkout_receipts pm now s w) as [->|[Hnew ->]]
  end; [done|].
  apply NoDup_app. split; [done|]. split; [|apply NoDup_singleton].
  intros x Hx Hx'. apply list_elem_of_singleton in Hx'. by subst x.
Qed.

End CheckoutFacts.

(** ** The checkout: the statements *)

(** C1, as stated, fails: with the payments insert refused, the sale and
    its two item rows are in the database, which is not as it was. *)
Lemma checkout_not_atomic :
  let w := Demo.backend [false; false; true] in
  let w' := snd (POS.handleCheckout Backend.cash 1000 Demo.till w) in
  (exists pay,
     In (Backend.InsertPayment pay, false)
       (POS.events Backend.cash 1000 Demo.till w)) /\
  length (Backend.sales (Backend.db w')) = 1%nat /\
  length (Backend.sale_items (Backend.db w')) = 2%nat /\
  Backend.db w' <> Backend.db w.
Proof.
  intros w w'. split_and!.
  - eexists. vm_compute. right. right. left. reflexivity.
  - by vm_compute.
  - by vm_compute.
  - intros H.
    apply (f_equal (fun d => length (Backend.sales d))) in H.
    vm_compute in H. discriminate.
Qed.

(** C1, amended.  The sales row, the sale_items rows and the payments row
    are written by three inserts that are not one transaction.  A refused
    sales insert leaves the database as it was; a refused sale_items insert
    leaves the sales row in it; a refused payments insert leaves the sales
    row and the sale_items rows in it; when the payments insert is applied
    the rows of all three are there. *)
Theorem checkout_inserts_persist (paymentMethod : Backend.payment_method)
  (now : Z) (s : POS.Screen) (w : Backend.World) :
  let evs := POS.events paymentMethod now s w in
  let d := Backend.db w in
  let d' := Backend.db (snd (POS.handleCheckout paymentMethod now s w)) in
  ((exists row, In (Backend.InsertSale row, false) evs) -> d' = d) /\
  ((exists items, In (Backend.InsertSaleItems items, false) evs) ->
   exists sale,
     Backend.sales d' = Backend.sales d ++ [sale] /\
     Backend.sale_items d' = Backend.sale_items d /\
     Backend.payments d' = Backend.payments d) /\
  ((exists pay, In (Backend.InsertPayment pay, false) evs) ->
   exists sale,
     Backend.sales d' = Backend.sales d ++ [sale] /\
     Backend.sale_items d'
     = Backend.sale_items d ++ POS.saleItems sale (POS.st_cart s) /\
     Backend.payments d' = Backend.payments d) /\
  ((exists pay, In (Backend.InsertPayment pay, true) evs) ->
   exists sale pay,
     Backend.sales d' = Backend.sales d ++ [sale] /\
     Backend.sale_items d'
     = Backend.sale_items d ++ POS.saleItems sale (POS.st_cart s) /\
     Backend.payments d' = Backend.payments d ++ [pay]).
Proof.
  intros evs d d'. subst evs d d'.
  destruct (checkout_result paymentMethod now s w)
    as [(-> & -> & _)
       |(store & cashier & evs & d & t & _ & _ & Hr & -> & -> & _)].
  { split; [|split; [|split]]; intros [x Hin]; destruct Hin. }
  pose proof (inserts_of_result _ _ _ _ _ _ _ _ _ Hr) as Hins.
  split; [|split; [|split]]; intros [x Hin];
    (apply in_inserts in Hin; [|done]);
    rewrite Hins in Hin; destruct Hr; simpl in Hin;
    repeat (destruct Hin as [Hin|Hin]; try discriminate Hin); try done.
  - by eexists.
  - by eexists.
  - by do 2 eexists.
Qed.

Lemma checkout_inserts_persist_witness :
  let w := Demo.backend [false; false; true] in
  let d' := Backend.db (snd (POS.handleCheckout Backend.cash 1000 Demo.till w)) in
  (exists pay,
     In (Backend.InsertPayment pay, false)
       (POS.events Backend.cash 1000 Demo.till w)) /\
  exists sale,
    Backend.sales d' = Backend.sales Demo.shelf ++ [sale] /\
    Backend.sale_items d'
    = Backend.sale_items Demo.shelf ++ POS.saleItems sale Demo.basket /\
    Backend.payments d' = Backend.payments Demo.shelf.
Proof.
  intros w d'.
  assert (exists pay,
            In (Backend.InsertPayment pay, false)
              (POS.events Backend.cash 1000 Demo.till w)) as Hin.
  { eexists. vm_compute. right. right. left. reflexivity. }
  split; [exact Hin|].
  exact (proj1 (proj2 (proj2
           (checkout_inserts_persist Backend.cash 1000 Demo.till w))) Hin).
Defined.

(** C2. When the payments insert is refused, the calls of the checkout are
    the sales insert and the sale_items insert, both applied, and the
    refused payments insert, and nothing after it: no delete, no call at
    all.  The sales row and the sale_items rows are in the database
    afterwards, and the cashier is told that the sale failed. *)
Theorem refused_payment_leaves_rows (paymentMethod : Backend.payment_method)
  (now : Z) (s : POS.Screen) (w : Backend.World) (pay : Backend.Payment) :
  In (Backend.InsertPayment pay, false) (POS.events paymentMethod now s w) ->
  let s' := fst (POS.handleCheckout paymentMethod now s w) in
  let d' := Backend.db (snd (POS.handleCheckout paymentMethod now s w)) in
  exists row,
    let sale := Backend.stored w row in
    let items := POS.saleItems sale (POS.st_cart s) in
    POS.events paymentMethod now s w
    = [(Backend.InsertSale row, true);
       (Backend.InsertSaleItems items, true);
       (Backend.InsertPayment pay, false)] /\
    Backend.sales d' = Backend.sales (Backend.db w) ++ [sale] /\
    Backend.sale_items d' = Backend.sale_items (Backend.db w) ++ items /\
    Backend.payments d' = Backend.payments (Backend.db w) /\
    POS.st_toasts s' = POS.st_toasts s ++ [POS.failed].
Proof.
  intros Hin s' d'. subst s' d'.
  destruct (checkout_result paymentMethod now s w)
    as [(He & _)
       |(store & cashier & evs & d & t & _ & _ & Hr & He & -> & ->)].
  { rewrite He in Hin. destruct Hin. }
  rewrite He in *. clear He.
  pose proof (inserts_of_result _ _ _ _ _ _ _ _ _ Hr) as Hins.
  apply in_inserts in Hin; [|done]. rewrite Hins in Hin.
  destruct Hr; simpl in Hin;
    repeat (destruct Hin as [Hin|Hin]; try discriminate Hin); try done.
  injection Hin as <-.
  eexists. split_and!; reflexivity.
Qed.

Lemma refused_payment_leaves_rows_witness :
  let w := Demo.backend [false; false; true] in
  let pay :=
    POS.paymentRow
      (Backend.stored w (POS.saleRow "s1" "u1" Demo.basket 1000))
      Backend.cash Demo.basket in
  In (Backend.InsertPayment pay, false)
    (POS.events Backend.cash 1000 Demo.till w) /\
  exists row,
    POS.events Backend.cash 1000 Demo.till w
    = [(Backend.InsertSale row, true);
       (Backend.InsertSaleItems
          (POS.saleItems (Backend.stored w row) Demo.basket), true);
       (Backend.InsertPayment pay, false)] /\
    Backend.sales
      (Backend.db (snd (POS.handleCheckout Backend.cash 1000 Demo.till w)))
    = [Backend.stored w row].
Proof.
  intros w pay.
  assert (In (Backend.InsertPayment pay, false)
            (POS.events Backend.cash 1000 Demo.till w)) as Hin.
  { vm_compute. right. right. left. reflexivity. }
  split; [exact Hin|].
  destruct (refused_payment_leaves_rows Backend.cash 1000 Demo.till w pay Hin)
    as (row & He & Hs & _).
  exists row. split; [exact He|exact Hs].
Defined.



(** C4. The receipt numbers of the sales table stay pairwise distinct
    through any checkouts, whatever their carts, instants and terminals and
    whatever the backend does: two sales that were completed never carry
    the same receipt number. *)
Theorem receipt_numbers_unique (d : Backend.DB) (l : list POS.Request) :
  NoDup (Backend.receipts d) ->
  NoDup (Backend.receipts (POS.serveAll d l)).
Proof.
  revert d. induction l as [|r l IH]; intros d Hnd; simpl; [done|].
  apply IH. by apply serve_receipts.
Qed.

Lemma receipt_numbers_unique_witness :
  NoDup (Backend.receipts Demo.shelf) /\
  NoDup (Backend.receipts (POS.serveAll Demo.shelf Demo.rush)).
Proof.
  assert (NoDup (Backend.receipts Demo.shelf)) as Hnd
    by (vm_compute; constructor).
  split; [exact Hnd|].
  apply (receipt_numbers_unique Demo.shelf Demo.rush Hnd).
Defined.

(** Two checkouts in the same millisecond generate the same receipt number:
    the second one is refused by the table and no second sale exists. *)
Example same_instant_one_sale :
  Backend.receipts (POS.serveAll Demo.shelf Demo.rush) = ["RCP-1000"].
Proof. by vm_compute. Qed.

(** The receipt number tells the instant of the checkout. *)
Lemma receiptNumber_inj now1 now2 :
  POS.receiptNumber now1 = POS.receiptNumber now2 -> now1 = now2.
Proof.
  unfold POS.receiptNumber. intros H.
  apply (inj pretty). by simplify_eq/=.
Qed.

(** C5, as stated, fails: a checkout reports success although a stock is
    not set to the stock of the cart item minus the quantity sold.  With two
    sodas (stock 10) and one milk (stock 5) in the cart, when the backend
    refuses the update of the sodas the stocks end as 10, 4 and 0; and for
    a signed-in user who is neither admin nor manager, whose updates of the
    products the policy of the table filters out without an error, they
    end as they were, 10, 5 and 0, while the three inserts are applied. *)
Lemma stock_not_decremented :
  let manager :=
    POS.handleCheckout Backend.cash 1000 Demo.till
      (Demo.backend [false; false; false; true]) in
  let cashier :=
    POS.handleCheckout Backend.cash 1000 Demo.cashier_till
      Demo.cashier_backend in
  map (fun item => (Cart.id item, Cart.stock_quantity item, Cart.quantity item))
    Demo.basket
  = [("p1", 10, 2); ("p2", 5, 1)] /\
  map Backend.pr_stock_quantity (Backend.products Demo.shelf) = [10; 5; 0] /\
  last (POS.st_toasts (fst manager)) = Some (POS.sale_completed 1000) /\
  map Backend.pr_stock_quantity (Backend.products (Backend.db (snd manager)))
  = [10; 4; 0] /\
  last (POS.st_toasts (fst cashier)) = Some (POS.sale_completed 1000) /\
  map snd (Backend.trace (snd cashier))
  = [true; true; true; false; false; true] /\
  length (Backend.sales (Backend.db (snd cashier))) = 1%nat /\
  map Backend.pr_stock_quantity (Backend.products (Backend.db (snd cashier)))
  = [10; 5; 0].
Proof. repeat split; by vm_compute. Qed.

Lemma decrement_of_calls c evs evs' p p' :
  (forall product_id q ok,
      In (Backend.UpdateStock product_id q, ok) evs' ->
      In (Backend.UpdateStock product_id q, ok) evs) ->
  POS.decrement_of c evs p p' -> POS.decrement_of c evs' p p'.
Proof.
  intros Hsub. unfold POS.decrement_of.
  destruct (List.find _ c); [|done].
  intros [Happlied Hrefused]. split; intros Hin.
  - by apply Happlied, Hsub.
  - by apply Hrefused, Hsub.
Qed.

Lemma decrement_call_issued (c : Cart.cart) : forall (oks : list bool) item,
  length oks = length c -> In item c ->
  exists ok, In (POS.decrement_call item, ok) (zip (map POS.decrement_call c) oks).
Proof.
  induction c as [|x c IH]; intros [|o oks] item Hlen Hin;
    try discriminate Hlen; [destruct Hin|].
  injection Hlen as Hlen. destruct Hin as [->|Hin].
  - exists o. by left.
  - destruct (IH oks item Hlen Hin) as [ok Hok]. exists ok. by right.
Qed.

(** C5, amended.  In a checkout that reports success, with one cart item
    per product, one stock update is issued for every item of the cart, and
    each row of the products table ends as follows: the row of a product of
    the cart whose update the backend applied has the stock held by the
    cart item minus the quantity sold, and differs from the row before in
    no other column but [updated_at]; the row of a product of the cart whose
    update was not applied, and the row of a product that is not in the
    cart, is as before. *)
Theorem stock_decrement_applied (paymentMethod : Backend.payment_method)
  (now : Z) (s : POS.Screen) (w : Backend.World) :
  NoDup (map Cart.id (POS.st_cart s)) ->
  last (POS.st_toasts (fst (POS.handleCheckout paymentMethod now s w)))
  = Some (POS.sale_completed now) ->
  let evs := POS.events paymentMethod now s w in
  (forall item, In item (POS.st_cart s) ->
     exists ok, In (POS.decrement_call item, ok) evs) /\
  Forall2 (POS.decrement_of (POS.st_cart s) evs)
    (Backend.products (Backend.db w))
    (Backend.products
       (Backend.db (snd (POS.handleCheckout paymentMethod now s w)))).
Proof.
  intros Hnd Hok evs. subst evs.
  destruct (checkout_result paymentMethod now s w)
    as [(_ & _ & msg & Ht)
       |(store & cashier & evs & d & t & _ & _ & Hr & He & -> & Ht)];
    rewrite Ht, last_snoc in Hok; [discriminate Hok|].
  rewrite He. clear He Ht.
  destruct Hr; try discriminate Hok. split.
  - intros item Hin.
    destruct (decrement_call_issued (POS.st_cart s) oks item) as [o Ho];
      try done.
    exists o. apply in_or_app. right. apply in_or_app. by left.
  - cbn [Backend.products Backend.set_products].
    rewrite decremented_rows. apply Forall2_map_self. intros p.
    apply (decrement_of_calls _ (zip (map POS.decrement_call (POS.st_cart s)) oks)).
    + intros product_id q o Hin.
      apply in_app_or in Hin as [Hin|Hin].
      { repeat (destruct Hin as [Hin|Hin]; [discriminate Hin|]). destruct Hin. }
      apply in_app_or in Hin as [Hin|Hin]; [exact Hin|].
      destruct Hin as [Hin|[]]. discriminate Hin.
    + by apply row_after_decrement.
Qed.

Lemma stock_decrement_applied_witness :
  let w := Demo.backend [false; false; false; true] in
  let w' := snd (POS.handleCheckout Backend.cash 1000 Demo.till w) in
  NoDup (map Cart.id Demo.basket) /\
  (forall item, In item Demo.basket ->
     exists ok,
       In (POS.decrement_call item, ok)
         (POS.events Backend.cash 1000 Demo.till w)) /\
  Forall2
    (POS.decrement_of Demo.basket (POS.events Backend.cash 1000 Demo.till w))
    (Backend.products Demo.shelf) (Backend.products (Backend.db w')) /\
  map (fun e => (fst e, snd e))
    (drop 3 (POS.events Backend.cash 1000 Demo.till w))
  = [(Backend.UpdateStock "p1" 8, false); (Backend.UpdateStock "p2" 4, true);
     (Backend.SelectProducts "s1", true)] /\
  map (fun p => (Backend.pr_stock_quantity p, Backend.pr_updated_at p))
    (Backend.products (Backend.db w'))
  = [(10, 0); (4, 5000); (0, 0)].
Proof.
  intros w w'.
  assert (NoDup (map Cart.id Demo.basket)) as Hnd.
  { apply (bool_decide_unpack _). by vm_compute. }
  split; [exact Hnd|].
  destruct (stock_decrement_applied Backend.cash 1000 Demo.till w Hnd)
    as [Hissued Hrows]; [by vm_compute|].
  split; [exact Hissued|]. split; [exact Hrows|].
  split; by vm_compute.
Defined.

(** C6, as stated, fails: with two products in the cart and the first stock
    update refused, the second update is issued all the same, and so is the
    refresh of the products after it. *)
Lemma stock_updates_not_gated :
  let evs :=
    POS.events Backend.cash 1000 Demo.till
      (Demo.backend [false; false; false; true]) in
  map (fun e => (POS.is_insert (fst e), snd e)) evs
  = [(true, true); (true, true); (true, true);
     (false, false); (false, true); (false, true)] /\
  POS.gated evs = false.
Proof. split; by vm_compute. Qed.

(** C6, amended.  The calls of a checkout, in order, are a beginning of:
    the insert of the sales row, whose amounts are those of
    [calculateTotals] on the cart, the insert of the sale_items rows, the
    insert of the payments row, one stock update per cart item in the order
    of the cart, and the refresh of the products.  An insert is issued only
    when the insert before it was applied, and the stock updates only when
    the payments insert was; the stock updates and the refresh are then all
    issued, whatever the backend answers to each. *)
Theorem checkout_call_order (paymentMethod : Backend.payment_method) (now : Z)
  (s : POS.Screen) (w : Backend.World) :
  let c := POS.st_cart s in
  let evs := POS.events paymentMethod now s w in
  evs = [] \/
  exists store cashier,
    POS.st_storeId s = Some store /\ POS.st_user s = Some cashier /\
    let t := Cart.calculateTotals c in
    let row :=
      {| Backend.receipt_number := POS.receiptNumber now;
         Backend.store_id := store;
         Backend.cashier_id := cashier;
         Backend.subtotal := Cart.subtotal t;
         Backend.vat_amount := Cart.vatAmount t;
         Backend.total_amount := Cart.total t;
         Backend.status := Some Backend.completed |} in
    let sale := Backend.stored w row in
    let i1 := Backend.InsertSale row in
    let i2 := Backend.InsertSaleItems (POS.saleItems sale c) in
    let i3 := Backend.InsertPayment (POS.paymentRow sale paymentMethod c) in
    evs = [(i1, false)] \/
    evs = [(i1, true); (i2, false)] \/
    evs = [(i1, true); (i2, true); (i3, false)] \/
    exists oks ok,
      length oks = length c /\
      evs = [(i1, true); (i2, true); (i3, true)]
            ++ zip (map POS.decrement_call c) oks
            ++ [(Backend.SelectProducts store, ok)].
Proof.
  intros c evs. subst c evs.
  destruct (checkout_result paymentMethod now s w)
    as [(He & _)
       |(store & cashier & evs & d & t & Hstore & Huser & Hr & He & _)];
    [by left|right].
  exists store, cashier. split; [by apply truthy_Some in Hstore as [? _]|].
  split; [done|].
  rewrite He. destruct Hr; simpl.
  - by left.
  - right. by left.
  - right. right. by left.
  - right. right. right. by exists oks, ok.
Qed.

(** C10 on the demo basket, two sodas and one milk: a third soda makes it
    three sodas, for three times the price, and one milk; bread, which is
    not in the basket, is appended with quantity 1. *)
Lemma addToCart_stock_check_witness :
  let sodas (q : Z) (x : Qc) :=
    {| Cart.id := "p1"; Cart.name := "Soda"; Cart.selling_price := of_Z 116;
       Cart.stock_quantity := 10; Cart.vat_rate := of_Z 16;
       Cart.quantity := q; Cart.line_total := x |} in
  let one_milk :=
    {| Cart.id := "p2"; Cart.name := "Milk"; Cart.selling_price := of_Z 60;
       Cart.stock_quantity := 5; Cart.vat_rate := of_Z 0;
       Cart.quantity := 1; Cart.line_total := of_Z 60 |} in
  let bread :=
    {| Cart.p_id := "p3"; Cart.p_name := "Bread";
       Cart.p_selling_price := of_Z 55; Cart.p_stock_quantity := 0;
       Cart.p_vat_rate := of_Z 0 |} in
  Cart.well_formed Demo.basket /\
  Demo.basket = [sodas 2 (of_Z 116 * of_Z 2)%Qc; one_milk] /\
  Cart.addToCart Demo.basket Demo.soda
  = ([sodas 3 (of_Z 116 * of_Z 3)%Qc; one_milk], None) /\
  Cart.addToCart Demo.basket bread
  = ([sodas 2 (of_Z 116 * of_Z 2)%Qc; one_milk;
      {| Cart.id := "p3"; Cart.name := "Bread"; Cart.selling_price := of_Z 55;
         Cart.stock_quantity := 0; Cart.vat_rate := of_Z 0;
         Cart.quantity := 1; Cart.line_total := of_Z 55 |}],
     None).
Proof.
  intros sodas one_milk bread.
  assert (Cart.well_formed Demo.basket) as Hwf.
  { apply (bool_decide_unpack _). by vm_compute. }
  assert (Demo.basket = [sodas 2 (of_Z 116 * of_Z 2)%Qc; one_milk]) as Hbasket.
  { reflexivity. }
  split; [exact Hwf|]. split; [exact Hbasket|].
  destruct (addToCart_stock_check Demo.basket Demo.soda Hwf) as [Hin _].
  destruct (addToCart_stock_check Demo.basket bread Hwf) as [_ Hnew].
  split.
  - destruct (Hin [] (sodas 2 (of_Z 116 * of_Z 2)%Qc) [one_milk] Hbasket eq_refl)
      as [_ Hadd].
    destruct Hadd as (E & _ & _); [simpl; lia|]. exact E.
  - rewrite Hbasket in Hnew at 2. apply Hnew.
    apply (bool_decide_unpack _). by vm_compute.
Defined.

(** ** The dashboard: the statements *)

Section DashboardFacts.
Import Backend Dashboard.

Lemma or_zero_id a : or_zero a = a.
Proof. unfold or_zero. by destruct (decide (a = 0%Qc)). Qed.

Lemma filter_map_length {A B} (f : A -> B) (P : B -> Prop)
  `{!forall y, Decision (P y)} (l : list A) :
  length (filter P (map f l)) = length (filter (fun x => P (f x)) l).
Proof.
  induction l as [|x l IH]; simpl; [done|].
  rewrite !filter_cons. destruct (decide (P (f x))); simpl; by rewrite IH.
Qed.

(** [startOfDay] is the last local midnight. *)
Lemma startOfDay_midnight tz now :
  startOfDay tz now <= now < startOfDay tz now + day /\
  (startOfDay tz now + tz) `mod` day = 0.
Proof.
  unfold startOfDay, day.
  pose proof (Z.mod_pos_bound (now + tz) 86400000 ltac:(lia)) as Hb.
  split; [lia|].
  replace (now - (now + tz) `mod` 86400000 + tz)
    with ((now + tz) - (now + tz) `mod` 86400000) by lia.
  rewrite Zminus_mod, Zmod_mod, Z.sub_diag. reflexivity.
Qed.

End DashboardFacts.

(** C7. When the profile of the user names a store and no query is
    refused, the statistics shown are: as Today's Sales, the sum of
    [total_amount] over the completed sales of that store created since the
    last local midnight; as Transactions, the number of those sales; as Low
    Stock Items, the number of active products of the store whose
    [stock_quantity] is at most their [reorder_level] (a missing level
    counting as 0, as it does in the comparison of the code); as Total
    Products, the number of active products of the store. *)
Theorem dashboard_statistics (user_id store : string) (tz now : Z)
  (v : Dashboard.View) (w : Backend.World) :
  Dashboard.profileRows user_id (Backend.db w) = [Some store] ->
  store <> "" ->
  (forall call,
      ~ In (call, false)
          (drop (length (Backend.trace w))
             (Backend.trace
                (snd (Dashboard.fetchDashboardData (Some user_id) tz now v w))))) ->
  let since := Dashboard.startOfDay tz now in
  let today :=
    filter (fun s => Backend.store_id (Backend.sale_data s) = store /\
                     Backend.status (Backend.sale_data s)
                     = Some Backend.completed /\
                     since <= Backend.created_at s)
      (Backend.sales (Backend.db w)) in
  let stocked :=
    filter (fun p => Backend.pr_store_id p = store /\
                     Backend.pr_active p = Some true)
      (Backend.products (Backend.db w)) in
  Dashboard.stats (fst (Dashboard.fetchDashboardData (Some user_id) tz now v w))
  = {| Dashboard.todaySales :=
         sum_of (map (fun s => Backend.total_amount (Backend.sale_data s)) today);
       Dashboard.todayTransactions := length today;
       Dashboard.lowStock :=
         length
           (filter (fun p => Backend.pr_stock_quantity p
                             <= default 0 (Backend.pr_reorder_level p))
              stocked);
       Dashboard.totalProducts := length stocked |}.
Proof.
  intros Hprofile Hne Hno since today stocked.
  assert (truthy (Some store) = Some store) as Hstore by (by apply truthy_Some).
  revert Hno. unfold Dashboard.fetchDashboardData, Backend.select_single.
  destruct (Backend.next_fault w) eqn:Hf1.
  { simpl. intros Hno. destruct (Hno (Backend.SelectProfile user_id)).
    rewrite drop_app_length. by left. }
  rewrite Hprofile. simpl. rewrite Hstore. unfold Backend.select.
  destruct (Backend.next_fault (Backend.answered _ _ _ _)) eqn:Hf2.
  { destruct (Backend.next_fault (Backend.answered (Backend.answered _ _ _ _) _ _ _));
      simpl; intros Hno;
      destruct (Hno (Backend.SelectTodaySales store
                       (Dashboard.startOfDay tz now)));
      rewrite <- !app_assoc, drop_app_length; right; by left. }
  destruct (Backend.next_fault (Backend.answered (Backend.answered _ _ _ _) _ _ _))
    eqn:Hf3.
  { simpl. intros Hno. destruct (Hno (Backend.SelectInventory store)).
    rewrite <- !app_assoc, drop_app_length. right. right. by left. }
  simpl. intros _. f_equal.
  - rewrite or_zero_id, (reduce_sum (fun a => a)), map_id.
    unfold Dashboard.todaySalesRows. fold since. subst today.
    unfold Dashboard.completed_since. ring.
  - unfold Dashboard.todaySalesRows. by rewrite length_map.
  - unfold Dashboard.inventoryRows. by rewrite filter_map_length.
  - unfold Dashboard.inventoryRows. by rewrite length_map.
Qed.

Lemma dashboard_statistics_witness :
  Dashboard.profileRows "u1" Demo.books = [Some "s1"] /\
  let st :=
    Dashboard.stats
      (fst (Dashboard.fetchDashboardData (Some "u1") Demo.nairobi Demo.morning
              Demo.blank Demo.office)) in
  Dashboard.todaySales st = of_Z 292 /\
  Dashboard.todayTransactions st = 1%nat /\
  Dashboard.lowStock st = 2%nat /\
  Dashboard.totalProducts st = 3%nat.
Proof.
  assert (Dashboard.profileRows "u1" Demo.books = [Some "s1"]) as Hp
    by reflexivity.
  split; [exact Hp|].
  intros st. subst st.
  rewrite (dashboard_statistics "u1" "s1" Demo.nairobi Demo.morning
             Demo.blank Demo.office Hp ltac:(discriminate)).
  - split_and!; try (by vm_compute).
    apply Qc_is_canon. by vm_compute.
  - intros call. vm_compute. intros H.
    repeat (destruct H as [H|H]; [discriminate H|]). exact H.
Defined.

(** ** More about the cart *)

Section MoreCartFacts.
Import Cart.

Lemma removeFromCart_others c productId :
  productId ∉ map id c -> removeFromCart c productId = c.
Proof.
  unfold removeFromCart, cart.
  induction c as [|item c IH]; intros Hnot; [done|].
  simpl in Hnot. apply not_elem_of_cons in Hnot as [Hne Hnot].
  rewrite filter_cons_True by congruence. f_equal. by apply IH.
Qed.

Lemma middle_ids pre item post :
  NoDup (map id (pre ++ item :: post)) ->
  (id item ∉ map id pre) /\ (id item ∉ map id post).
Proof.
  rewrite map_app. simpl. intros Hnd.
  apply NoDup_app in Hnd as (_ & Hdisj & Hnd).
  apply NoDup_cons in Hnd as [Hpost _].
  split; [|done]. intros Hin. apply (Hdisj _ Hin). left.
Qed.

Lemma removeFromCart_middle pre item post :
  NoDup (map id (pre ++ item :: post)) ->
  removeFromCart (pre ++ item :: post) (id item) = pre ++ post.
Proof.
  intros Hnd. apply middle_ids in Hnd as [Hpre Hpost].
  pose proof (removeFromCart_others pre (id item) Hpre) as Epre.
  pose proof (removeFromCart_others post (id item) Hpost) as Epost.
  unfold removeFromCart, cart in *.
  rewrite filter_app, Epre. f_equal.
  rewrite filter_cons_False by (intros H; by apply H). exact Epost.
Qed.

(** An update to a quantity that is not positive drops the items of the
    product, whatever their quantity was. *)
Lemma updateQuantity_drop c productId q :
  Forall item_ok c -> q <= 0 ->
  updateQuantity c productId q = removeFromCart c productId.
Proof.
  unfold updateQuantity, removeFromCart, cart. intros Hok Hq.
  rewrite (Z.max_l 0 q) by lia.
  induction c as [|item c IH]; [done|].
  apply Forall_cons in Hok as [[Hpos _] Hok].
  rewrite map_cons, !filter_cons.
  destruct (decide (id item = productId)) as [Heq|Hne]; simpl.
  - destruct (decide (0 < 0)) as [?|_]; [lia|].
    destruct (decide (id item <> productId)) as [?|_]; [done|]. by apply IH.
  - destruct (decide (0 < quantity item)) as [_|?]; [|lia].
    destruct (decide (id item <> productId)) as [_|?]; [|done].
    f_equal. by apply IH.
Qed.

Lemma subtotal_sum c :
  subtotal (calculateTotals c) = sum_of (map line_total c).
Proof. simpl. rewrite (reduce_sum line_total). ring. Qed.

Lemma total_sum c :
  total (calculateTotals c) = sum_of (map line_total c).
Proof. exact (subtotal_sum c). Qed.

Lemma vatAmount_sum c :
  vatAmount (calculateTotals c) = sum_of (map itemVat c).
Proof. simpl. rewrite (reduce_sum itemVat). ring. Qed.

(** The VAT of one item lies between nothing and its line total when
    neither its line total nor its rate is negative. *)
Lemma itemVat_bounds item :
  (0 <= line_total item)%Qc -> (0 <= vat_rate item)%Qc ->
  (0 <= itemVat item)%Qc /\ (itemVat item <= line_total item)%Qc.
Proof.
  intros Hx Hr. unfold itemVat.
  set (x := line_total item) in *. set (r := vat_rate item) in *.
  assert (0 < of_Z 100)%Qc as H100 by reflexivity.
  assert (0 < of_Z 100 + r)%Qc as HD by (by apply Qcplus_pos_nonneg).
  assert (of_Z 100 + r <> 0)%Qc as HD0.
  { intros E. rewrite E in HD. by apply Qclt_not_eq in HD. }
  assert (x * r / (of_Z 100 + r) * (of_Z 100 + r) = x * r)%Qc as E.
  { field. exact HD0. }
  assert (0 <= x * r)%Qc as Hxr.
  { rewrite <- (Qcmult_0_l r). by apply Qcmult_le_compat_r. }
  split; apply (Qcmult_lt_0_le_reg_r _ _ (of_Z 100 + r) HD); rewrite E.
  - by rewrite Qcmult_0_l.
  - rewrite !(Qcmult_comm x). apply Qcmult_le_compat_r; [|done].
    rewrite <- (Qcplus_0_l r) at 1. apply Qcplus_le_mono_r.
    by apply Qclt_le_weak.
Qed.

End MoreCartFacts.

(** X1. On a well-formed cart, [updateQuantity] with a positive quantity
    gives the item of that product the new quantity and its line total
    again, in place, and leaves every other item as it is.  The stock of
    the product plays no part: the quantity may be set above it. *)
Theorem updateQuantity_sets_quantity (pre post : Cart.cart)
  (item : Cart.CartItem) (q : Z) :
  Cart.well_formed (pre ++ item :: post) -> 0 < q ->
  Cart.updateQuantity (pre ++ item :: post) (Cart.id item) q
  = pre ++ Cart.with_quantity item q :: post.
Proof. intros Hwf Hq. by apply updateQuantity_middle. Qed.

Lemma updateQuantity_sets_quantity_witness :
  Cart.well_formed Demo.basket /\
  map Cart.quantity
    (Cart.updateQuantity Demo.basket "p1" 50) = [50; 1] /\
  map Cart.stock_quantity Demo.basket = [10; 5].
Proof.
  assert (Cart.well_formed Demo.basket) as Hwf.
  { apply (bool_decide_unpack _). by vm_compute. }
  split; [exact Hwf|]. split; [|reflexivity].
  pose proof (updateQuantity_sets_quantity [] [Cart.newItem Demo.milk]
                (Cart.with_quantity (Cart.newItem Demo.soda) 2)
                50 Hwf ltac:(lia)) as E.
  change (Cart.updateQuantity Demo.basket "p1" 50
          = [Cart.with_quantity
               (Cart.with_quantity (Cart.newItem Demo.soda) 2) 50;
             Cart.newItem Demo.milk]) in E.
  rewrite E. reflexivity.
Defined.

(** X2. On a well-formed cart, [updateQuantity] with a quantity of zero or
    less does what [removeFromCart] does: the minus button on a quantity
    of 1 takes the item out of the cart. *)
Theorem updateQuantity_nonpositive_removes (c : Cart.cart)
  (productId : string) (q : Z) :
  Cart.well_formed c -> q <= 0 ->
  Cart.updateQuantity c productId q = Cart.removeFromCart c productId.
Proof. intros [Hok _] Hq. by apply updateQuantity_drop. Qed.

Lemma updateQuantity_nonpositive_removes_witness :
  Cart.well_formed Demo.basket /\
  Cart.updateQuantity Demo.basket "p2" (1 - 1)
  = Cart.removeFromCart Demo.basket "p2" /\
  map Cart.id (Cart.updateQuantity Demo.basket "p2" (1 - 1)) = ["p1"].
Proof.
  assert (Cart.well_formed Demo.basket) as Hwf.
  { apply (bool_decide_unpack _). by vm_compute. }
  split; [exact Hwf|].
  pose proof (updateQuantity_nonpositive_removes Demo.basket "p2" (1 - 1)
                Hwf ltac:(lia)) as E.
  split; [exact E|]. rewrite E. reflexivity.
Defined.

(** X3. [removeFromCart] takes out the item of the product and nothing
    else, and a cart without such an item is returned as it is. *)
Theorem removeFromCart_only_that_item (c : Cart.cart) (productId : string) :
  NoDup (map Cart.id c) ->
  (forall pre item post,
      c = pre ++ item :: post -> Cart.id item = productId ->
      Cart.removeFromCart c productId = pre ++ post) /\
  (productId ∉ map Cart.id c -> Cart.removeFromCart c productId = c).
Proof.
  intros Hnd. split.
  - intros pre item post -> <-. by apply removeFromCart_middle.
  - apply removeFromCart_others.
Qed.

Lemma removeFromCart_only_that_item_witness :
  NoDup (map Cart.id Demo.basket) /\
  Cart.removeFromCart Demo.basket "p1" = [Cart.newItem Demo.milk] /\
  Cart.removeFromCart Demo.basket "p9" = Demo.basket.
Proof.
  assert (NoDup (map Cart.id Demo.basket)) as Hnd.
  { apply (bool_decide_unpack _). by vm_compute. }
  split; [exact Hnd|].
  destruct (removeFromCart_only_that_item Demo.basket "p1" Hnd) as [H1 _].
  destruct (removeFromCart_only_that_item Demo.basket "p9" Hnd) as [_ H9].
  split.
  - apply (H1 [] (Cart.with_quantity (Cart.newItem Demo.soda) 2)
             [Cart.newItem Demo.milk]); reflexivity.
  - apply H9. by apply (bool_decide_unpack _).
Defined.

(** X4. Adding a product that is not in the cart and removing it again
    gives the cart back. *)
Theorem add_then_remove (c : Cart.cart) (product : Cart.Product) :
  Cart.p_id product ∉ map Cart.id c ->
  Cart.removeFromCart (fst (Cart.addToCart c product)) (Cart.p_id product) = c.
Proof.
  intros Hnot. unfold Cart.addToCart.
  destruct (List.find _ c) as [existingItem|] eqn:Hfind.
  { apply find_id_Some in Hfind as [Hin Hid]. destruct Hnot.
    apply list_elem_of_In, in_map_iff. by exists existingItem. }
  pose proof (removeFromCart_others c (Cart.p_id product) Hnot) as E.
  unfold fst, Cart.removeFromCart, Cart.cart in *.
  rewrite filter_app, E, filter_cons_False, filter_nil, app_nil_r; [done|].
  intros H. by apply H.
Qed.

Lemma add_then_remove_witness :
  ("p1" ∉ map Cart.id [Cart.newItem Demo.milk]) /\
  Cart.removeFromCart
    (fst (Cart.addToCart [Cart.newItem Demo.milk] Demo.soda)) "p1"
  = [Cart.newItem Demo.milk].
Proof.
  assert ("p1" ∉ map Cart.id [Cart.newItem Demo.milk]) as Hnot.
  { by apply (bool_decide_unpack _). }
  split; [exact Hnot|].
  apply (add_then_remove [Cart.newItem Demo.milk] Demo.soda Hnot).
Defined.

(** X7. When no item of the cart has a negative line total or a negative
    VAT rate, the VAT amount of [calculateTotals] is not negative and not
    more than the subtotal. *)
Theorem vat_within_subtotal (c : Cart.cart) :
  Forall (fun item => (0 <= Cart.line_total item)%Qc /\
                      (0 <= Cart.vat_rate item)%Qc) c ->
  (0 <= Cart.vatAmount (Cart.calculateTotals c))%Qc /\
  (Cart.vatAmount (Cart.calculateTotals c)
   <= Cart.subtotal (Cart.calculateTotals c))%Qc.
Proof.
  intros Hc. rewrite vatAmount_sum, subtotal_sum.
  induction Hc as [|item c [Hx Hr] _ [IH0 IH1]]; simpl.
  - split; apply Qcle_refl.
  - destruct (itemVat_bounds item Hx Hr) as [H0 H1]. split.
    + by apply Qcplus_nonneg_nonneg.
    + by apply Qcplus_le_compat.
Qed.

Lemma vat_within_subtotal_witness :
  Forall (fun item => (0 <= Cart.line_total item)%Qc /\
                      (0 <= Cart.vat_rate item)%Qc) Demo.basket /\
  (Cart.vatAmount (Cart.calculateTotals Demo.basket)
   <= Cart.subtotal (Cart.calculateTotals Demo.basket))%Qc.
Proof.
  assert (Forall (fun item => (0 <= Cart.line_total item)%Qc /\
                              (0 <= Cart.vat_rate item)%Qc) Demo.basket) as Hc.
  { repeat constructor; by vm_compute. }
  split; [exact Hc|].
  apply (vat_within_subtotal Demo.basket Hc).
Defined.

(** ** More about the checkout *)

Section MoreCheckoutFacts.
Import Cart Backend POS.

(** The screen after a checkout: one message more; after a failure the
    cart and the products are as before, after a success the cart is
    empty. *)
Lemma handleCheckout_screen paymentMethod now s w :
  let s' := fst (handleCheckout paymentMethod now s w) in
  st_user s' = st_user s /\ st_storeId s' = st_storeId s /\
  ((exists msg,
      st_toasts s' = st_toasts s ++ [ToastError msg] /\
      st_cart s' = st_cart s /\ st_products s' = st_products s) \/
   (st_toasts s' = st_toasts s ++ [sale_completed now] /\
    st_cart s' = [] /\ st_loading s' = false)).
Proof.
  unfold handleCheckout.
  destruct (decide (length (st_cart s) = 0%nat)); [simpl; eauto 10|].
  destruct (truthy (st_storeId s)) as [store|]; [|simpl; eauto 10].
  destruct (writes _ store paymentMethod now w) as [[[]|e] w1];
    [|simpl; eauto 10].
  destruct (select _ _ w1) as [[[ps|e]|e] w2]; simpl; eauto 10.
Qed.

(** A checkout whose payments insert was refused. *)
Lemma payment_refused_result paymentMethod now s w pay :
  In (InsertPayment pay, false) (events paymentMethod now s w) ->
  exists store cashier,
    let row := saleRow store cashier (st_cart s) now in
    pay = paymentRow (stored w row) paymentMethod (st_cart s) /\
    (receipt_number row ∉ receipts (db w)) /\
    events paymentMethod now s w
    = [(InsertSale row, true);
       (InsertSaleItems (saleItems (stored w row) (st_cart s)), true);
       (InsertPayment pay, false)] /\
    db (snd (handleCheckout paymentMethod now s w))
    = db_items w row (st_cart s) /\
    st_toasts (fst (handleCheckout paymentMethod now s w))
    = st_toasts s ++ [failed].
Proof.
  intros Hin.
  destruct (checkout_result paymentMethod now s w)
    as [(He & _)
       |(store & cashier & evs & d & t & _ & _ & Hr & He & Hd & Ht)].
  { rewrite He in Hin. destruct Hin. }
  rewrite He in *. rewrite Hd, Ht. clear He Hd Ht.
  pose proof (inserts_of_result _ _ _ _ _ _ _ _ _ Hr) as Hins.
  apply in_inserts in Hin; [|done]. rewrite Hins in Hin.
  destruct Hr; simpl in Hin;
    repeat (destruct Hin as [Hin|Hin]; try discriminate Hin); try done.
  injection Hin as <-. by exists store, cashier.
Qed.

(** A checkout whose payments insert was applied. *)
Lemma payment_applied_result paymentMethod now s w pay :
  In (InsertPayment pay, true) (events paymentMethod now s w) ->
  exists store cashier oks,
    let row := saleRow store cashier (st_cart s) now in
    pay = paymentRow (stored w row) paymentMethod (st_cart s) /\
    (receipt_number row ∉ receipts (db w)) /\
    truthy (st_storeId s) = Some store /\ st_user s = Some cashier /\
    db (snd (handleCheckout paymentMethod now s w))
    = set_products (db_payment w row (st_cart s) paymentMethod)
        (decremented (clock w) (zip (st_cart s) oks) (products (db w))) /\
    st_toasts (fst (handleCheckout paymentMethod now s w))
    = st_toasts s ++ [sale_completed now].
Proof.
  intros Hin.
  destruct (checkout_result paymentMethod now s w)
    as [(He & _)
       |(store & cashier & evs & d & t & Hs & Hu & Hr & He & Hd & Ht)].
  { rewrite He in Hin. destruct Hin. }
  rewrite He in *. rewrite Hd, Ht. clear He Hd Ht.
  pose proof (inserts_of_result _ _ _ _ _ _ _ _ _ Hr) as Hins.
  apply in_inserts in Hin; [|done]. rewrite Hins in Hin.
  destruct Hr; simpl in Hin;
    repeat (destruct Hin as [Hin|Hin]; try discriminate Hin); try done.
  injection Hin as <-. by exists store, cashier, oks.
Qed.

Lemma saleItems_line_totals sale c :
  sum_of (map si_line_total (saleItems sale c)) = sum_of (map line_total c).
Proof. unfold saleItems. by rewrite map_map. Qed.

End MoreCheckoutFacts.

(** X8. A checkout is stopped on the screen, before any call to the
    backend, in three cases: an empty cart ("Cart is empty", checked
    first), a store that is null or empty ("Store not configured") and a
    cart with a store but nobody signed in (the sale is reported as
    failed).  The backend and the cart are as before in all three. *)
Theorem checkout_stopped_on_screen (paymentMethod : Backend.payment_method)
  (now : Z) (s : POS.Screen) (w : Backend.World) :
  let r := POS.handleCheckout paymentMethod now s w in
  (POS.st_cart s = [] ->
   r = (POS.show (Cart.ToastError "Cart is empty") s, w)) /\
  (POS.st_cart s <> [] ->
   POS.st_storeId s = None \/ POS.st_storeId s = Some "" ->
   r = (POS.show (Cart.ToastError "Store not configured") s, w)) /\
  (POS.st_cart s <> [] ->
   POS.st_storeId s <> None -> POS.st_storeId s <> Some "" ->
   POS.st_user s = None ->
   snd r = w /\ POS.st_cart (fst r) = POS.st_cart s /\
   POS.st_toasts (fst r) = POS.st_toasts s ++ [POS.failed] /\
   POS.st_loading (fst r) = false).
Proof.
  intros r. subst r. unfold POS.handleCheckout. split; [|split].
  - intros ->. reflexivity.
  - intros Hc Hs.
    destruct (decide (length (POS.st_cart s) = 0%nat)) as [Hl|_].
    { destruct (POS.st_cart s); [done|discriminate]. }
    by destruct Hs as [->| ->].
  - intros Hc Hs1 Hs2 Hu.
    destruct (decide (length (POS.st_cart s) = 0%nat)) as [Hl|_].
    { destruct (POS.st_cart s); [done|discriminate]. }
    destruct (POS.st_storeId s) as [[|a store]|]; try done.
    unfold truthy, POS.writes, Backend.bind. simpl. rewrite Hu. by simpl.
Qed.

Lemma checkout_stopped_on_screen_witness :
  let nobody :=
    {| POS.st_user := None; POS.st_storeId := Some "s1";
       POS.st_cart := Demo.basket; POS.st_products := [];
       POS.st_loading := false; POS.st_toasts := [] |} in
  Demo.basket <> [] /\
  snd (POS.handleCheckout Backend.cash 1000 nobody (Demo.backend []))
  = Demo.backend [].
Proof.
  intros nobody.
  assert (Demo.basket <> []) as Hne by (by vm_compute).
  split; [exact Hne|].
  apply (checkout_stopped_on_screen Backend.cash 1000 nobody (Demo.backend []));
    done.
Defined.

(** X9. Whatever the backend does, a checkout shows exactly one message
    and leaves the user and the store of the screen alone.  When the
    message is an error the cart and the list of products are as before,
    so the sale can be tried again; when it is the completion of the sale
    the cart is empty and the screen is no longer loading. *)
Theorem checkout_keeps_cart_on_failure (paymentMethod : Backend.payment_method)
  (now : Z) (s : POS.Screen) (w : Backend.World) :
  let s' := fst (POS.handleCheckout paymentMethod now s w) in
  POS.st_user s' = POS.st_user s /\ POS.st_storeId s' = POS.st_storeId s /\
  ((exists msg,
      POS.st_toasts s' = POS.st_toasts s ++ [Cart.ToastError msg] /\
      POS.st_cart s' = POS.st_cart s /\
      POS.st_products s' = POS.st_products s) \/
   (POS.st_toasts s' = POS.st_toasts s ++ [POS.sale_completed now] /\
    POS.st_cart s' = [] /\ POS.st_loading s' = false)).
Proof. apply handleCheckout_screen. Qed.

(** X10. When the payments insert of a checkout is applied, the rows the
    checkout has added agree with each other: one sale, one sale_items row
    per cart item with the id of that sale, the product and the quantity of
    the item, and one payment with the id of that sale; the amount of the
    payment is the total of the sale, which is the sum of the line totals
    of the sale_items rows. *)
Theorem checkout_rows_agree (paymentMethod : Backend.payment_method)
  (now : Z) (s : POS.Screen) (w : Backend.World) (pay : Backend.Payment) :
  In (Backend.InsertPayment pay, true) (POS.events paymentMethod now s w) ->
  let d := Backend.db w in
  let d' := Backend.db (snd (POS.handleCheckout paymentMethod now s w)) in
  exists sale items,
    Backend.sales d' = Backend.sales d ++ [sale] /\
    Backend.sale_items d' = Backend.sale_items d ++ items /\
    Backend.payments d' = Backend.payments d ++ [pay] /\
    Forall (fun i => Backend.si_sale_id i = Backend.sale_id sale) items /\
    map Backend.si_product_id items = map Cart.id (POS.st_cart s) /\
    map Backend.si_quantity items = map Cart.quantity (POS.st_cart s) /\
    Backend.pay_sale_id pay = Backend.sale_id sale /\
    Backend.pay_payment_method pay = paymentMethod /\
    Backend.pay_amount pay = Backend.total_amount (Backend.sale_data sale) /\
    Backend.total_amount (Backend.sale_data sale)
    = sum_of (map Backend.si_line_total items).
Proof.
  intros Hin d d'. subst d d'.
  destruct (payment_applied_result _ _ _ _ _ Hin)
    as (store & cashier & oks & -> & _ & _ & _ & -> & _).
  eexists. eexists. split_and!; try reflexivity.
  - apply Forall_forall. intros i Hi.
    apply list_elem_of_In, in_map_iff in Hi as (item & <- & _). reflexivity.
  - unfold POS.saleItems. rewrite map_map. reflexivity.
  - unfold POS.saleItems. rewrite map_map. reflexivity.
  - rewrite saleItems_line_totals. apply total_sum.
Qed.

Lemma checkout_rows_agree_witness :
  let w := Demo.backend [] in
  let pay :=
    POS.paymentRow
      (Backend.stored w (POS.saleRow "s1" "u1" Demo.basket 1000))
      Backend.cash Demo.basket in
  In (Backend.InsertPayment pay, true)
    (POS.events Backend.cash 1000 Demo.till w) /\
  exists sale items,
    Backend.sales
      (Backend.db (snd (POS.handleCheckout Backend.cash 1000 Demo.till w)))
    = [sale] /\
    map Backend.si_quantity items = [2; 1] /\
    Backend.pay_amount pay = sum_of (map Backend.si_line_total items).
Proof.
  intros w pay.
  assert (In (Backend.InsertPayment pay, true)
            (POS.events Backend.cash 1000 Demo.till w)) as Hin.
  { vm_compute. right. right. left. reflexivity. }
  split; [exact Hin|].
  destruct (checkout_rows_agree Backend.cash 1000 Demo.till w pay Hin)
    as (sale & items & Hs & _ & _ & _ & _ & Hq & _ & _ & Ha & Ht).
  exists sale, items. split; [exact Hs|]. split; [exact Hq|].
  by rewrite Ha.
Defined.

(** ** The tables through any checkouts *)

Section LedgerFacts.
Import Cart Backend POS Ledger.

Lemma set_stock_unstocked product_id q now ps :
  map unstocked (set_stock product_id q now ps) = map unstocked ps.
Proof.
  unfold set_stock. rewrite map_map. apply map_ext. intros p.
  by destruct (decide (pr_id p = product_id)).
Qed.

Lemma decremented_unstocked now l : forall ps,
  map unstocked (decremented now l ps) = map unstocked ps.
Proof.
  unfold decremented.
  induction l as [|[item ok] l IH]; intros ps; simpl; [done|].
  rewrite IH. destruct ok; simpl; [apply set_stock_unstocked|done].
Qed.

(** What a checkout does to the database: nothing, or one sale more, with
    its items or none, with its payment or none, and other stocks. *)
Lemma checkout_db_shape paymentMethod now s w :
  let d := db w in
  let d' := db (snd (handleCheckout paymentMethod now s w)) in
  d' = d \/
  exists store cashier items pays ps,
    let row := saleRow store cashier (st_cart s) now in
    let sale := stored w row in
    (receipt_number row ∉ receipts d) /\
    d' = {| products := ps;
            sales := sales d ++ [sale];
            sale_items := sale_items d ++ items;
            payments := payments d ++ pays;
            profiles := profiles d;
            user_roles := user_roles d;
            next_uuid := N.succ (next_uuid d) |} /\
    (items = [] \/ items = saleItems sale (st_cart s)) /\
    (pays = [] \/ pays = [paymentRow sale paymentMethod (st_cart s)]) /\
    map unstocked ps = map unstocked (products d).
Proof.
  intros d d'. subst d d'.
  destruct (checkout_result paymentMethod now s w)
    as [(_ & -> & _)|(store & cashier & evs & d & t & _ & _ & Hr & _ & -> & _)];
    [by left|].
  destruct Hr; [by left|right..]; exists store, cashier.
  - exists [], [], (products (db w)). split_and!; try done; eauto.
    unfold db_sale, add_sale. simpl. by rewrite !app_nil_r.
  - exists (saleItems (stored w row) (st_cart s)), [], (products (db w)).
    split_and!; try done; eauto.
    unfold db_items, db_sale, add_sale_items, add_sale. simpl.
    by rewrite !app_nil_r.
  - exists (saleItems (stored w row) (st_cart s)),
      [paymentRow (stored w row) paymentMethod (st_cart s)],
      (decremented (clock w) (zip (st_cart s) oks) (products (db w))).
    split_and!; try done; eauto. apply decremented_unstocked.
Qed.

End LedgerFacts.

(** X11. Checkouts only ever add rows: through any sequence of checkouts,
    from any terminals and whatever the backend answers, the sales, the
    sale_items and the payments that were in the database stay in it, in
    place and unchanged, at most one sale is added per checkout, and the
    profiles are not touched. *)
Theorem checkouts_append_only (d : Backend.DB) (l : list POS.Request) :
  let d' := POS.serveAll d l in
  Backend.sales d `prefix_of` Backend.sales d' /\
  Backend.sale_items d `prefix_of` Backend.sale_items d' /\
  Backend.payments d `prefix_of` Backend.payments d' /\
  Backend.profiles d' = Backend.profiles d /\
  (length (Backend.sales d') <= length (Backend.sales d) + length l)%nat.
Proof.
  revert d. induction l as [|r l IH]; intros d; simpl.
  { split_and!; try done. lia. }
  destruct (IH (POS.serve d r)) as (Hs & Hi & Hp & Hf & Hn).
  assert (Backend.sales d `prefix_of` Backend.sales (POS.serve d r) /\
          Backend.sale_items d `prefix_of` Backend.sale_items (POS.serve d r) /\
          Backend.payments d `prefix_of` Backend.payments (POS.serve d r) /\
          Backend.profiles (POS.serve d r) = Backend.profiles d /\
          (length (Backend.sales (POS.serve d r))
           <= S (length (Backend.sales d)))%nat) as (Hs1 & Hi1 & Hp1 & Hf1 & Hn1).
  { unfold POS.serve.
    match goal with
    | |- context [POS.handleCheckout ?pm ?now ?s ?w] =>
        destruct (checkout_db_shape pm now s w)
          as [->|(store & cashier & items & pays & ps & _ & -> & _)]
    end; simpl.
    - split_and!; try done. lia.
    - split_and!; try (by eexists). rewrite length_app. simpl. lia. }
  split_and!.
  - by etrans.
  - by etrans.
  - by etrans.
  - by rewrite Hf.
  - lia.
Qed.

(** X12. If every sale_items row and every payments row of the database
    points to a sale that is in it, the payment with the amount of that
    sale, then this is still so after any sequence of checkouts, whatever
    the backend answers: a checkout never leaves an item or a payment
    without its sale. *)
Theorem checkouts_keep_references (d : Backend.DB) (l : list POS.Request) :
  Ledger.referenced d -> Ledger.referenced (POS.serveAll d l).
Proof.
  revert d. induction l as [|r l IH]; intros d Href; simpl; [done|].
  apply IH. clear IH. unfold POS.serve.
  match goal with
  | |- context [POS.handleCheckout ?pm ?now ?s ?w] =>
      destruct (checkout_db_shape pm now s w)
        as [->|(store & cashier & items & pays & ps & _ & -> & Hi & Hp & _)]
  end; [done|].
  destruct Href as [Hitems Hpays]. simpl in *. split; simpl.
  - apply Forall_app. split.
    + eapply Forall_impl; [exact Hitems|]. simpl. intros i Hin.
      rewrite map_app. apply elem_of_app. by left.
    + destruct Hi as [->| ->]; [constructor|].
      apply Forall_forall. intros i Hin.
      apply list_elem_of_In, in_map_iff in Hin as (item & <- & _). simpl.
      rewrite map_app. apply elem_of_app. right. simpl. left.
  - apply Forall_app. split.
    + eapply Forall_impl; [exact Hpays|]. simpl.
      intros p (sale & Hin & Hid & Ha). exists sale.
      split; [|done]. apply elem_of_app. by left.
    + destruct Hp as [->| ->]; [constructor|].
      apply Forall_cons. split; [|constructor].
      eexists. split; [apply elem_of_app; right; left|]. done.
Qed.

Lemma checkouts_keep_references_witness :
  Ledger.referenced Demo.shelf /\
  Ledger.referenced (POS.serveAll Demo.shelf Demo.rush) /\
  length (Backend.sale_items (POS.serveAll Demo.shelf Demo.rush)) = 2%nat /\
  length (Backend.payments (POS.serveAll Demo.shelf Demo.rush)) = 1%nat.
Proof.
  assert (Ledger.referenced Demo.shelf) as Href.
  { split; constructor. }
  split; [exact Href|].
  split; [exact (checkouts_keep_references Demo.shelf Demo.rush Href)|].
  split; by vm_compute.
Defined.

(** X13. A checkout never adds or removes a product and never changes a
    column of a product other than its stock and the [updated_at] that the
    trigger of the table sets on every update: through any sequence of
    checkouts the products table is the same up to these two columns. *)
Theorem checkouts_change_stock_only (d : Backend.DB) (l : list POS.Request) :
  map Ledger.unstocked (Backend.products (POS.serveAll d l))
  = map Ledger.unstocked (Backend.products d).
Proof.
  revert d. induction l as [|r l IH]; intros d; simpl; [done|].
  rewrite IH. unfold POS.serve.
  match goal with
  | |- context [POS.handleCheckout ?pm ?now ?s ?w] =>
      destruct (checkout_db_shape pm now s w)
        as [->|(store & cashier & items & pays & ps & _ & -> & _ & _ & Hps)]
  end; [done|exact Hps].
Qed.


(** ** The checkout does not look at the stock *)

Section Oblivious.
Import Cart Backend POS Ledger.

Lemma same_next_fault w1 w2 :
  same_but_product_columns w1 w2 -> next_fault w1 = next_fault w2.
Proof.
  intros (_ & _ & _ & _ & _ & _ & _ & _ & Hf & _).
  unfold next_fault. by rewrite Hf.
Qed.

Lemma same_stored w1 w2 row :
  same_but_product_columns w1 w2 -> stored w1 row = stored w2 row.
Proof.
  intros (_ & _ & _ & _ & _ & _ & Hn & _ & _ & Hc & _).
  unfold stored. by rewrite Hn, Hc.
Qed.

Lemma same_receipts w1 w2 :
  same_but_product_columns w1 w2 -> receipts (db w1) = receipts (db w2).
Proof. intros (_ & Hs & _). unfold receipts. by rewrite Hs. Qed.

(** The foreign key of the sale_items looks at the ids of the products
    only. *)
Lemma same_products_exist w1 w2 rows :
  same_but_product_columns w1 w2 ->
  products_exist (db w1) rows = products_exist (db w2) rows.
Proof. intros (Hids & _). unfold products_exist. by rewrite Hids. Qed.

(** The policy of the products looks at the roles of the signed-in user
    only. *)
Lemma same_manages_products w1 w2 :
  same_but_product_columns w1 w2 -> manages_products w1 = manages_products w2.
Proof.
  intros (_ & _ & _ & _ & _ & Hr & _ & _ & _ & _ & Hse).
  unfold manages_products, has_role. by rewrite Hr, Hse.
Qed.

Lemma set_stock_ids product_id q now ps :
  map pr_id (set_stock product_id q now ps) = map pr_id ps.
Proof.
  unfold set_stock. rewrite map_map. apply map_ext. intros p.
  by destruct (decide (pr_id p = product_id)).
Qed.

(** Answering the same call with the same result keeps two states alike,
    when the databases they are given are alike. *)
Lemma same_answered w1 w2 d1 d2 c ok :
  same_but_product_columns w1 w2 ->
  map pr_id (products d1) = map pr_id (products d2) ->
  sales d1 = sales d2 -> sale_items d1 = sale_items d2 ->
  payments d1 = payments d2 -> profiles d1 = profiles d2 ->
  user_roles d1 = user_roles d2 ->
  next_uuid d1 = next_uuid d2 ->
  same_but_product_columns (answered w1 d1 c ok) (answered w2 d2 c ok).
Proof.
  intros (_ & _ & _ & _ & _ & _ & _ & Ht & Hf & Hc & Hse) ? ? ? ? ? ? ?.
  unfold same_but_product_columns, answered. simpl. rewrite Ht, Hf, Hc, Hse.
  by split_and!.
Qed.

Lemma same_answered_db w1 w2 c ok :
  same_but_product_columns w1 w2 ->
  same_but_product_columns (answered w1 (db w1) c ok)
    (answered w2 (db w2) c ok).
Proof.
  intros H. pose proof H as (? & ? & ? & ? & ? & ? & ? & _).
  by apply same_answered.
Qed.

Lemma oblivious_ret {A} (a : A) : oblivious (ret a).
Proof. by intros w1 w2 H. Qed.

Lemma oblivious_throw {A} e : oblivious (@throw A e).
Proof. by intros w1 w2 H. Qed.

Lemma oblivious_bind {A B} (m : M A) (k : A -> M B) :
  oblivious m -> (forall a, oblivious (k a)) -> oblivious (bind m k).
Proof.
  intros Hm Hk w1 w2 H. unfold bind.
  destruct (Hm w1 w2 H) as [Hr Hw].
  destruct (m w1) as [r1 w1'], (m w2) as [r2 w2']. simpl in *. subst r2.
  destruct r1 as [a|e]; [by apply Hk|done].
Qed.

Lemma oblivious_orThrow {A} (r : response A) : oblivious (orThrow r).
Proof. destruct r; [apply oblivious_ret|apply oblivious_throw]. Qed.

Lemma oblivious_userId u : oblivious (userId u).
Proof. destruct u; [apply oblivious_ret|apply oblivious_throw]. Qed.

Lemma oblivious_insert_sale row : oblivious (insert_sale row).
Proof.
  intros w1 w2 H. unfold insert_sale.
  rewrite (same_receipts w1 w2 H), (same_next_fault w1 w2 H),
    (same_stored w1 w2 row H).
  pose proof H as (Hids & Hs & Hi & Hp & Hf & Hr & Hn & _).
  destruct (bool_decide _); [split; [done|by apply same_answered_db]|].
  destruct (next_fault w2); (split; [done|]).
  - by apply same_answered_db.
  - apply same_answered; simpl; try done; by rewrite ?Hs, ?Hn.
Qed.

Lemma oblivious_insert_sale_items rows : oblivious (insert_sale_items rows).
Proof.
  intros w1 w2 H. unfold insert_sale_items.
  rewrite (same_products_exist w1 w2 rows H), (same_next_fault w1 w2 H).
  pose proof H as (Hids & Hs & Hi & Hp & Hf & Hr & Hn & _).
  destruct (products_exist (db w2) rows); simpl;
    [|split; [done|by apply same_answered_db]].
  destruct (next_fault w2); (split; [done|]).
  - by apply same_answered_db.
  - apply same_answered; simpl; try done; by rewrite ?Hi.
Qed.

Lemma oblivious_insert_payment row : oblivious (insert_payment row).
Proof.
  intros w1 w2 H. unfold insert_payment.
  rewrite (same_next_fault w1 w2 H).
  pose proof H as (Hids & Hs & Hi & Hp & Hf & Hr & Hn & _).
  destruct (next_fault w2); (split; [done|]).
  - by apply same_answered_db.
  - apply same_answered; simpl; try done; by rewrite ?Hp.
Qed.

Lemma oblivious_update_stock product_id q : oblivious (update_stock product_id q).
Proof.
  intros w1 w2 H. unfold update_stock.
  rewrite (same_next_fault w1 w2 H), (same_manages_products w1 w2 H).
  pose proof H as (Hids & Hs & Hi & Hp & Hf & Hr & Hn & _).
  destruct (next_fault w2); [split; [done|by apply same_answered_db]|].
  destruct (manages_products w2); (split; [done|]).
  - apply same_answered; simpl; try done. by rewrite !set_stock_ids.
  - by apply same_answered_db.
Qed.

Lemma oblivious_forEach {A} (l : list A) (body : A -> M unit) :
  (forall x, oblivious (body x)) -> oblivious (forEach l body).
Proof.
  intros Hbody. induction l as [|x l IH]; simpl.
  - apply oblivious_ret.
  - apply oblivious_bind; [apply Hbody|]. intros _. exact IH.
Qed.

Lemma oblivious_writes s store paymentMethod now :
  oblivious (writes s store paymentMethod now).
Proof.
  unfold writes.
  apply oblivious_bind; [apply oblivious_userId|]. intros cashier.
  apply oblivious_bind; [apply oblivious_insert_sale|]. intros r1.
  apply oblivious_bind; [apply oblivious_orThrow|]. intros sale.
  apply oblivious_bind; [apply oblivious_insert_sale_items|]. intros r2.
  apply oblivious_bind; [apply oblivious_orThrow|]. intros _.
  apply oblivious_bind; [apply oblivious_insert_payment|]. intros r3.
  apply oblivious_bind; [apply oblivious_orThrow|]. intros _.
  apply oblivious_forEach. intros item. unfold decrement.
  apply oblivious_bind; [apply oblivious_update_stock|]. intros _.
  apply oblivious_ret.
Qed.

End Oblivious.

(** X15. The checkout reads no column of the products table: run on two
    states of the backend that list the same products and differ at most in
    the columns of these (other stocks, other prices, other names), it
    issues the same calls with the same arguments and results, shows the
    same message, leaves the same cart and writes the same sales,
    sale_items and payments.  Which products there are does count: the
    sale_items refer to them. *)
Theorem checkout_ignores_product_columns
  (paymentMethod : Backend.payment_method) (now : Z) (s : POS.Screen)
  (w1 w2 : Backend.World) :
  Ledger.same_but_product_columns w1 w2 ->
  let r1 := POS.handleCheckout paymentMethod now s w1 in
  let r2 := POS.handleCheckout paymentMethod now s w2 in
  POS.events paymentMethod now s w1 = POS.events paymentMethod now s w2 /\
  Ledger.same_but_product_columns (snd r1) (snd r2) /\
  POS.st_toasts (fst r1) = POS.st_toasts (fst r2) /\
  POS.st_cart (fst r1) = POS.st_cart (fst r2).
Proof.
  intros H r1 r2.
  assert (Ledger.same_but_product_columns (snd r1) (snd r2) /\
          POS.st_toasts (fst r1) = POS.st_toasts (fst r2) /\
          POS.st_cart (fst r1) = POS.st_cart (fst r2)) as (Hw & Ht & Hc).
  { subst r1 r2. unfold POS.handleCheckout.
    destruct (decide (length (POS.st_cart s) = 0%nat)); [done|].
    destruct (truthy (POS.st_storeId s)) as [store|]; [|done].
    destruct (oblivious_writes (POS.setLoading true s) store paymentMethod
                now w1 w2 H) as [Hr Hw].
    destruct (POS.writes _ store paymentMethod now w1) as [o1 w1'],
      (POS.writes _ store paymentMethod now w2) as [o2 w2'].
    simpl in Hr, Hw. subst o2. destruct o1 as [[]|e]; [|done].
    unfold Backend.select. rewrite (same_next_fault w1' w2' Hw).
    destruct (Backend.next_fault w2'); simpl;
      (split; [by apply same_answered_db|done]). }
  split; [|done]. unfold POS.events. fold r1 r2.
  destruct H as (_ & _ & _ & _ & _ & _ & _ & Ht1 & _).
  destruct Hw as (_ & _ & _ & _ & _ & _ & _ & Ht2 & _).
  by rewrite Ht1, Ht2.
Qed.

Lemma checkout_ignores_product_columns_witness :
  let w1 := Demo.backend [] in
  let w2 :=
    {| Backend.db :=
         Backend.set_products Demo.shelf
           (map (fun p => Backend.with_stock p 0) (Backend.products Demo.shelf));
       Backend.trace := []; Backend.faults := []; Backend.clock := 5000;
       Backend.session := Some "u1" |} in
  Ledger.same_but_product_columns w1 w2 /\
  map Backend.pr_stock_quantity (Backend.products (Backend.db w1))
  = [10; 5; 0] /\
  map Backend.pr_stock_quantity (Backend.products (Backend.db w2))
  = [0; 0; 0] /\
  POS.events Backend.cash 1000 Demo.till w1
  = POS.events Backend.cash 1000 Demo.till w2 /\
  length (POS.events Backend.cash 1000 Demo.till w2) = 6%nat.
Proof.
  intros w1 w2.
  assert (Ledger.same_but_product_columns w1 w2) as H by (by repeat split).
  split; [exact H|].
  split; [by vm_compute|]. split; [by vm_compute|].
  split; [|by vm_compute].
  apply (checkout_ignores_product_columns Backend.cash 1000 Demo.till w1 w2 H).
Defined.

(** X16. A checkout whose payments insert was refused keeps its cart, and
    trying again from the same screen records the purchase a second time:
    when the payments insert of the second try is applied, the database
    holds two sales for the one cart, with different ids and receipt
    numbers and the same total, each with its sale_items rows, and a single
    payment, which is for the second sale. *)
Theorem retry_records_sale_twice (paymentMethod : Backend.payment_method)
  (now1 now2 : Z) (s : POS.Screen) (w : Backend.World)
  (pay1 pay2 : Backend.Payment) :
  let r1 := POS.handleCheckout paymentMethod now1 s w in
  let r2 := POS.handleCheckout paymentMethod now2 (fst r1) (snd r1) in
  In (Backend.InsertPayment pay1, false) (POS.events paymentMethod now1 s w) ->
  In (Backend.InsertPayment pay2, true)
    (POS.events paymentMethod now2 (fst r1) (snd r1)) ->
  exists sale1 sale2,
    Backend.sales (Backend.db (snd r2))
    = Backend.sales (Backend.db w) ++ [sale1; sale2] /\
    Backend.sale_items (Backend.db (snd r2))
    = Backend.sale_items (Backend.db w)
      ++ POS.saleItems sale1 (POS.st_cart s)
      ++ POS.saleItems sale2 (POS.st_cart s) /\
    Backend.payments (Backend.db (snd r2))
    = Backend.payments (Backend.db w) ++ [pay2] /\
    Backend.pay_sale_id pay2 = Backend.sale_id sale2 /\
    Backend.sale_id sale1 <> Backend.sale_id sale2 /\
    Backend.receipt_number (Backend.sale_data sale1)
    <> Backend.receipt_number (Backend.sale_data sale2) /\
    Backend.total_amount (Backend.sale_data sale1)
    = Backend.total_amount (Backend.sale_data sale2).
Proof.
  intros r1 r2 Hin1 Hin2. subst r2.
  destruct (payment_refused_result _ _ _ _ _ Hin1)
    as (store1 & cashier1 & _ & _ & _ & Hd1 & Ht1).
  destruct (handleCheckout_screen paymentMethod now1 s w)
    as (_ & _ & [(msg & _ & Hcart & _)|(Ht1' & _)]).
  2:{ rewrite Ht1 in Ht1'. apply app_inv_head in Ht1'. discriminate Ht1'. }
  fold r1 in Hd1, Hcart, Hin2 |- *.
  destruct (payment_applied_result _ _ _ _ _ Hin2)
    as (store2 & cashier2 & oks & -> & Hnew & _ & _ & -> & _).
  rewrite Hcart in *.
  set (row1 := POS.saleRow store1 cashier1 (POS.st_cart s) now1) in *.
  set (row2 := POS.saleRow store2 cashier2 (POS.st_cart s) now2) in *.
  exists (Backend.stored w row1), (Backend.stored (snd r1) row2).
  simpl. rewrite Hd1. simpl. rewrite <- !app_assoc. simpl.
  split_and!; try reflexivity.
  - intros E. apply (inj pretty) in E. lia.
  - intros E. apply Hnew. rewrite Hd1. unfold Backend.receipts. simpl.
    rewrite map_app. apply elem_of_app. right. simpl. rewrite E. left.
Qed.

Lemma retry_records_sale_twice_witness :
  let w := Demo.backend [false; false; true] in
  let r1 := POS.handleCheckout Backend.cash 1000 Demo.till w in
  let r2 := POS.handleCheckout Backend.cash 2000 (fst r1) (snd r1) in
  (exists pay1,
     In (Backend.InsertPayment pay1, false)
       (POS.events Backend.cash 1000 Demo.till w)) /\
  (exists pay2,
     In (Backend.InsertPayment pay2, true)
       (POS.events Backend.cash 2000 (fst r1) (snd r1))) /\
  length (Backend.sales (Backend.db (snd r2))) = 2%nat /\
  length (Backend.payments (Backend.db (snd r2))) = 1%nat.
Proof.
  intros w r1 r2.
  assert (exists pay1,
            In (Backend.InsertPayment pay1, false)
              (POS.events Backend.cash 1000 Demo.till w)) as [pay1 H1].
  { eexists. vm_compute. right. right. left. reflexivity. }
  assert (exists pay2,
            In (Backend.InsertPayment pay2, true)
              (POS.events Backend.cash 2000 (fst r1) (snd r1))) as [pay2 H2].
  { eexists. vm_compute. right. right. left. reflexivity. }
  split; [by exists pay1|]. split; [by exists pay2|].
  destruct (retry_records_sale_twice Backend.cash 1000 2000 Demo.till w
              pay1 pay2 H1 H2) as (sale1 & sale2 & Hs & _ & Hp & _).
  fold r1 in Hs, Hp. fold r2 in Hs, Hp. rewrite Hs, Hp. split; reflexivity.
Defined.

(** ** More about the dashboard *)

Section MoreDashboardFacts.
Import Backend Dashboard.

(** What [fetchDashboardData] comes to for a signed-in user: the profile
    gives no store and the statistics stay, or the two queries are made and
    the statistics are those of their answers. *)
Lemma fetch_cases user_id tz now v w :
  let r := fetchDashboardData (Some user_id) tz now v w in
  db (snd r) = db w /\ loading (fst r) = false /\
  ((stats (fst r) = stats v /\
    (forall store, store <> "" -> profileRows user_id (db w) = [Some store] ->
                   next_fault w = true) /\
    exists ok, trace (snd r) = trace w ++ [(SelectProfile user_id, ok)]) \/
   (exists (store : string) (ok1 ok2 : bool),
      profileRows user_id (db w) = [Some store] /\ store <> "" /\
      let since := startOfDay tz now in
      let sales_data :=
        if ok1 then Some (todaySalesRows store since (db w)) else None in
      let products_data :=
        if ok2 then Some (inventoryRows store (db w)) else None in
      trace (snd r)
      = trace w ++ [(SelectProfile user_id, true);
                    (SelectTodaySales store since, ok1);
                    (SelectInventory store, ok2)] /\
      stats (fst r)
      = {| todaySales := totalSales sales_data;
           todayTransactions := count sales_data;
           lowStock := lowStockCount products_data;
           totalProducts := count products_data |})).
Proof.
  unfold fetchDashboardData, select_single.
  destruct (next_fault w) eqn:Hf1.
  { simpl. split_and!; try done. left. split_and!; eauto. }
  destruct (profileRows user_id (db w)) as [|[store|] [|]] eqn:Hp; simpl;
    try (split_and!; try done; left; split_and!; eauto; done).
  destruct (truthy (Some store)) as [store'|] eqn:Hs.
  2:{ split_and!; try done. left. split_and!; eauto.
      intros store' Hne [= <-].
      assert (truthy (Some store) = Some store) as E by (by apply truthy_Some).
      congruence. }
  apply truthy_Some in Hs as [[= <-] Hne].
  unfold select.
  destruct (next_fault (answered _ _ _ _)) eqn:Hf2;
    destruct (next_fault (answered (answered _ _ _ _) _ _ _)) eqn:Hf3;
    simpl; (split_and!; try done); right;
    [exists store, false, false|exists store, false, true
    |exists store, true, false|exists store, true, true];
    simpl; rewrite <- !app_assoc; by split_and!.
Qed.

Lemma lowStockCount_le data : (lowStockCount data <= count data)%nat.
Proof.
  destruct data as [rows|]; simpl; [apply length_filter|lia].
Qed.

End MoreDashboardFacts.

(** X17. Loading the dashboard never writes: whatever the user and the
    answers of the backend, the database is as before, and at most three
    calls are made. *)
Theorem dashboard_reads_only (user : option string) (tz now : Z)
  (v : Dashboard.View) (w : Backend.World) :
  let r := Dashboard.fetchDashboardData user tz now v w in
  Backend.db (snd r) = Backend.db w /\
  Backend.trace w `prefix_of` Backend.trace (snd r) /\
  (length (Backend.trace (snd r)) <= length (Backend.trace w) + 3)%nat.
Proof.
  destruct user as [user_id|]; [|simpl; split_and!; try done; lia].
  destruct (fetch_cases user_id tz now v w)
    as (Hd & _ & [(_ & _ & ok & Ht)|(store & ok1 & ok2 & _ & _ & Ht & _)]);
    cbv zeta; rewrite Ht, length_app; simpl;
    (split_and!; [done|by eexists|lia]).
Qed.

(** X18. If the low-stock count shown is at most the product count shown,
    it still is after the dashboard has been loaded, whatever the backend
    answers; so it always is, starting from the zeros of the page. *)
Theorem dashboard_low_stock_bounded (user : option string) (tz now : Z)
  (v : Dashboard.View) (w : Backend.World) :
  (Dashboard.lowStock (Dashboard.stats v)
   <= Dashboard.totalProducts (Dashboard.stats v))%nat ->
  let v' := fst (Dashboard.fetchDashboardData user tz now v w) in
  (Dashboard.lowStock (Dashboard.stats v')
   <= Dashboard.totalProducts (Dashboard.stats v'))%nat.
Proof.
  intros Hv. destruct user as [user_id|]; [|done].
  destruct (fetch_cases user_id tz now v w)
    as (_ & _ & [(Hs & _)|(store & ok1 & ok2 & _ & _ & _ & Hs)]);
    cbv zeta; rewrite Hs; [done|]. simpl. apply lowStockCount_le.
Qed.

Lemma dashboard_low_stock_bounded_witness :
  let v' :=
    fst (Dashboard.fetchDashboardData (Some "u1") Demo.nairobi Demo.morning
           Demo.blank Demo.office) in
  (Dashboard.lowStock (Dashboard.stats Demo.blank)
   <= Dashboard.totalProducts (Dashboard.stats Demo.blank))%nat /\
  (Dashboard.lowStock (Dashboard.stats v')
   <= Dashboard.totalProducts (Dashboard.stats v'))%nat /\
  Dashboard.totalProducts (Dashboard.stats v') = 3%nat.
Proof.
  intros v'.
  assert (Dashboard.lowStock (Dashboard.stats Demo.blank)
          <= Dashboard.totalProducts (Dashboard.stats Demo.blank))%nat as H
    by (simpl; lia).
  split; [exact H|].
  split; [|by vm_compute].
  apply (dashboard_low_stock_bounded (Some "u1") Demo.nairobi Demo.morning
           Demo.blank Demo.office H).
Defined.

(** X19. When the query of today's sales is refused and the inventory
    query is answered, the dashboard shows 0 for Today's Sales and for
    Transactions, without any error, next to the right counts of the
    products. *)
Theorem dashboard_refused_sales_show_zero (user_id store : string)
  (tz now : Z) (v : Dashboard.View) (w : Backend.World) :
  let r := Dashboard.fetchDashboardData (Some user_id) tz now v w in
  let calls := drop (length (Backend.trace w)) (Backend.trace (snd r)) in
  In (Backend.SelectTodaySales store (Dashboard.startOfDay tz now), false)
    calls ->
  In (Backend.SelectInventory store, true) calls ->
  let stocked :=
    filter (fun p => Backend.pr_store_id p = store /\
                     Backend.pr_active p = Some true)
      (Backend.products (Backend.db w)) in
  Dashboard.stats (fst r)
  = {| Dashboard.todaySales := 0%Qc;
       Dashboard.todayTransactions := 0;
       Dashboard.lowStock :=
         length
           (filter (fun p => Backend.pr_stock_quantity p
                             <= default 0 (Backend.pr_reorder_level p))
              stocked);
       Dashboard.totalProducts := length stocked |}.
Proof.
  intros r calls Hsales Hinv stocked. subst calls r.
  destruct (fetch_cases user_id tz now v w)
    as (_ & _ & [(_ & _ & ok & Ht)|(store' & ok1 & ok2 & _ & _ & Ht & Hs)]);
    cbv zeta in *; rewrite Ht, drop_app_length in Hsales, Hinv.
  { destruct Hsales as [Hsales|[]]. discriminate Hsales. }
  rewrite Hs. clear Hs Ht.
  destruct Hsales as [E|[E|[E|[]]]]; try discriminate E.
  injection E as -> ->.
  destruct Hinv as [E|[E|[E|[]]]]; try discriminate E.
  injection E as ->. simpl. f_equal.
  - unfold Dashboard.inventoryRows. by rewrite filter_map_length.
  - unfold Dashboard.inventoryRows. by rewrite length_map.
Qed.

Lemma dashboard_refused_sales_show_zero_witness :
  let w :=
    {| Backend.db := Demo.books; Backend.trace := [];
       Backend.faults := [false; true; false];
       Backend.clock := Demo.morning; Backend.session := Some "u1" |} in
  let r :=
    Dashboard.fetchDashboardData (Some "u1") Demo.nairobi Demo.morning
      Demo.blank w in
  In (Backend.SelectTodaySales "s1"
        (Dashboard.startOfDay Demo.nairobi Demo.morning), false)
    (Backend.trace (snd r)) /\
  Dashboard.todayTransactions (Dashboard.stats (fst r)) = 0%nat /\
  Dashboard.totalProducts (Dashboard.stats (fst r)) = 3%nat.
Proof.
  intros w r.
  assert (In (Backend.SelectTodaySales "s1"
                (Dashboard.startOfDay Demo.nairobi Demo.morning), false)
            (Backend.trace (snd r))) as H1.
  { vm_compute. right. left. reflexivity. }
  assert (In (Backend.SelectInventory "s1", true) (Backend.trace (snd r)))
    as H2.
  { vm_compute. right. right. left. reflexivity. }
  split; [exact H1|].
  subst r.
  rewrite (dashboard_refused_sales_show_zero "u1" "s1" Demo.nairobi
             Demo.morning Demo.blank w H1 H2).
  split; by vm_compute.
Defined.

(** X20. When the profile of the user does not give a store (no profile,
    a profile without a store, or a refused query), the statistics are
    left as they were, the page stops loading, and only the profile was
    asked for. *)
Theorem dashboard_without_store (user_id : string) (tz now : Z)
  (v : Dashboard.View) (w : Backend.World) :
  (forall store, store <> "" ->
                 Dashboard.profileRows user_id (Backend.db w) = [Some store] ->
                 Backend.next_fault w = true) ->
  let r := Dashboard.fetchDashboardData (Some user_id) tz now v w in
  Dashboard.stats (fst r) = Dashboard.stats v /\
  Dashboard.loading (fst r) = false /\
  exists ok,
    Backend.trace (snd r)
    = Backend.trace w ++ [(Backend.SelectProfile user_id, ok)].
Proof.
  intros Hno r. subst r.
  destruct (fetch_cases user_id tz now v w)
    as (_ & Hl & [(Hs & _ & Ht)|(store & ok1 & ok2 & Hp & Hne & Ht & _)]);
    cbv zeta in *.
  { by split_and!. }
  exfalso. specialize (Hno store Hne Hp). revert Ht.
  unfold Dashboard.fetchDashboardData, Backend.select_single.
  rewrite Hno. simpl. intros E. apply app_inv_head in E. discriminate E.
Qed.

Lemma dashboard_without_store_witness :
  let r :=
    Dashboard.fetchDashboardData (Some "u9") Demo.nairobi Demo.morning
      Demo.blank Demo.office in
  Dashboard.profileRows "u9" Demo.books = [] /\
  Dashboard.stats (fst r) = Dashboard.stats Demo.blank /\
  Dashboard.loading (fst r) = false.
Proof.
  intros r. split; [reflexivity|].
  destruct (dashboard_without_store "u9" Demo.nairobi Demo.morning
              Demo.blank Demo.office) as (Hs & Hl & _).
  { intros store _ Hp. discriminate Hp. }
  split; [exact Hs|exact Hl].
Defined.

(** ** The start of the point-of-sale screen *)

Section StartupFacts.
Import Cart Backend POS Startup.

(** What [fetchStoreAndProducts] comes to for a signed-in user. *)
Lemma fetchStore_cases user_id s w :
  st_user s = Some user_id ->
  let r := fetchStoreAndProducts s w in
  db (snd r) = db w /\
  ((fst r = s /\
    forall store, store <> "" ->
                  Dashboard.profileRows user_id (db w) = [Some store] ->
                  next_fault w = true) \/
   exists store,
     Dashboard.profileRows user_id (db w) = [Some store] /\ store <> "" /\
     next_fault w = false /\
     (fst r = setStoreId store s \/
      fst r = setProducts (storeProducts store (db w)) (setStoreId store s))).
Proof.
  intros Hu. unfold fetchStoreAndProducts, select_single. rewrite Hu.
  destruct (next_fault w) eqn:Hf1; [simpl; split; [done|left; by split]|].
  destruct (Dashboard.profileRows user_id (db w)) as [|[store|] [|]] eqn:Hp;
    simpl; try (split; [done|left; split; [done|]; by intros ? ? [=]]).
  destruct (truthy (Some store)) as [store'|] eqn:Hs.
  2:{ simpl. split; [done|left]. split; [done|].
      intros store' Hne [= <-].
      assert (truthy (Some store) = Some store) as E by (by apply truthy_Some).
      congruence. }
  apply truthy_Some in Hs as [[= <-] Hne].
  unfold select.
  destruct (next_fault (answered _ _ _ _)); simpl;
    (split; [done|]); right; exists store; split_and!; eauto.
Qed.

(** The profile of a user who has just signed up. *)
Lemma new_profile_rows d new_id d' :
  handle_new_user d new_id = Some d' ->
  Dashboard.profileRows new_id d' = [None].
Proof.
  unfold handle_new_user. destruct (bool_decide _) eqn:Hin; [done|].
  apply bool_decide_eq_false in Hin. intros [= <-].
  unfold Dashboard.profileRows. simpl. rewrite filter_app.
  assert (filter (fun p => pf_id p = new_id) (profiles d) = []) as ->.
  { induction (profiles d) as [|p l IH]; [done|]. simpl in Hin.
    apply not_elem_of_cons in Hin as [Hne Hin].
    rewrite filter_cons_False by congruence. by apply IH. }
  rewrite filter_cons_True by done. done.
Qed.

Lemma prefix_refl s : String.prefix s s = true.
Proof.
  induction s as [|a s IH]; simpl; [done|].
  by destruct (Ascii.ascii_dec a a).
Qed.

Lemma includes_self s : includes s s = true.
Proof. destruct s; [done|]. cbn [includes]. by rewrite prefix_refl. Qed.

Lemma includes_empty s : includes s "" = true.
Proof. by destruct s. Qed.

End StartupFacts.

(** X21. A user who has just signed up has a profile without a store: the
    point-of-sale screen of this user gets no store and no products from
    the backend, and a checkout from it is stopped on the screen with an
    error, without any call, whatever the cart. *)
Theorem new_user_cannot_sell (d d' : Backend.DB) (new_id : string)
  (s : POS.Screen) (w : Backend.World)
  (paymentMethod : Backend.payment_method) (now : Z) :
  Startup.handle_new_user d new_id = Some d' ->
  Backend.db w = d' ->
  POS.st_user s = Some new_id -> POS.st_storeId s = None ->
  let r := Startup.fetchStoreAndProducts s w in
  fst r = s /\
  snd (POS.handleCheckout paymentMethod now (fst r) (snd r)) = snd r /\
  exists msg,
    POS.st_toasts (fst (POS.handleCheckout paymentMethod now (fst r) (snd r)))
    = POS.st_toasts s ++ [Cart.ToastError msg].
Proof.
  intros Hnew Hd Hu Hs r. subst r.
  apply new_profile_rows in Hnew. rewrite <- Hd in Hnew.
  destruct (fetchStore_cases new_id s w Hu)
    as (_ & [[E _]|(store & Hp & _)]); cbv zeta in *.
  2:{ rewrite Hnew in Hp. discriminate Hp. }
  rewrite E. split; [done|].
  unfold POS.handleCheckout. rewrite Hs.
  destruct (decide (length (POS.st_cart s) = 0%nat)); simpl; eauto.
Qed.

Lemma new_user_cannot_sell_witness :
  let newcomer :=
    {| POS.st_user := Some "u2"; POS.st_storeId := None;
       POS.st_cart := Demo.basket; POS.st_products := [];
       POS.st_loading := false; POS.st_toasts := [] |} in
  exists d',
    Startup.handle_new_user Demo.shelf "u2" = Some d' /\
    let w :=
      {| Backend.db := d'; Backend.trace := []; Backend.faults := [];
         Backend.clock := 5000; Backend.session := Some "u2" |} in
    let r := Startup.fetchStoreAndProducts newcomer w in
    Backend.sales
      (Backend.db (snd (POS.handleCheckout Backend.cash 1000 (fst r) (snd r))))
    = [].
Proof.
  intros newcomer. eexists. split; [reflexivity|].
  intros w r.
  destruct (new_user_cannot_sell Demo.shelf _ "u2" newcomer w Backend.cash 1000
              eq_refl eq_refl eq_refl eq_refl) as (_ & E & _).
  fold r in E. rewrite E. reflexivity.
Defined.

(** X22. Once the screen has loaded the store of the profile of the user
    (the profile names a store and the query is not refused), every
    checkout of a cart from that screen starts with the insert of a sale
    for that store, with that user as cashier. *)
Theorem sale_is_for_the_profile_store (user_id store : string)
  (s : POS.Screen) (w w' : Backend.World)
  (paymentMethod : Backend.payment_method) (now : Z) :
  POS.st_user s = Some user_id ->
  Dashboard.profileRows user_id (Backend.db w) = [Some store] ->
  store <> "" ->
  Backend.next_fault w = false ->
  POS.st_cart s <> [] ->
  let s' := fst (Startup.fetchStoreAndProducts s w) in
  POS.st_storeId s' = Some store /\
  exists row ok rest,
    POS.events paymentMethod now s' w' = (Backend.InsertSale row, ok) :: rest /\
    Backend.store_id row = store /\
    Backend.cashier_id row = user_id.
Proof.
  intros Hu Hp Hne Hf Hc s'. subst s'.
  destruct (fetchStore_cases user_id s w Hu)
    as (_ & [[_ Hno]|(store' & Hp' & _ & _ & E)]); cbv zeta in *.
  { rewrite (Hno store Hne Hp) in Hf. discriminate Hf. }
  rewrite Hp in Hp'. injection Hp' as <-.
  assert (POS.st_storeId (fst (Startup.fetchStoreAndProducts s w)) = Some store
          /\ POS.st_user (fst (Startup.fetchStoreAndProducts s w)) = Some user_id
          /\ POS.st_cart (fst (Startup.fetchStoreAndProducts s w)) = POS.st_cart s)
    as (Hs' & Hu' & Hc').
  { by destruct E as [-> | ->]. }
  split; [exact Hs'|].
  destruct (checkout_started paymentMethod now
              (fst (Startup.fetchStoreAndProducts s w)) w' store user_id)
    as (evs & d & t & Hr & He & _).
  - by rewrite Hc'.
  - apply truthy_Some. by rewrite Hs'.
  - exact Hu'.
  - rewrite He. destruct Hr; do 3 eexists; (split; [reflexivity|done]).
Qed.

Lemma sale_is_for_the_profile_store_witness :
  let visitor :=
    {| POS.st_user := Some "u1"; POS.st_storeId := None;
       POS.st_cart := Demo.basket; POS.st_products := [];
       POS.st_loading := false; POS.st_toasts := [] |} in
  Demo.basket <> [] /\
  POS.st_storeId (fst (Startup.fetchStoreAndProducts visitor (Demo.backend [])))
  = Some "s1".
Proof.
  intros visitor.
  assert (Demo.basket <> []) as Hne by (by vm_compute).
  split; [exact Hne|].
  apply (sale_is_for_the_profile_store "u1" "s1" visitor (Demo.backend [])
           (Demo.backend []) Backend.cash 1000
           eq_refl eq_refl ltac:(discriminate) eq_refl Hne).
Defined.

(** X23. Loading the store and the products never writes to the database,
    and the products on the screen afterwards are those that were there or
    the products of the store of the profile of the user that are marked
    active: every product shown has the id, name, price, stock and rate of
    such a row, and every such row is shown.  A product of another store
    or an inactive one is never shown. *)
Theorem products_shown_are_of_the_store (s : POS.Screen) (w : Backend.World) :
  let r := Startup.fetchStoreAndProducts s w in
  let shows (p : Cart.Product) (row : Backend.ProductRow) :=
    Cart.p_id p = Backend.pr_id row /\
    Cart.p_name p = Backend.pr_name row /\
    Cart.p_selling_price p = Backend.pr_selling_price row /\
    Cart.p_stock_quantity p = Backend.pr_stock_quantity row /\
    Cart.p_vat_rate p = Backend.pr_vat_rate row in
  Backend.db (snd r) = Backend.db w /\
  (POS.st_products (fst r) = POS.st_products s \/
   exists user_id store,
     POS.st_user s = Some user_id /\
     Dashboard.profileRows user_id (Backend.db w) = [Some store] /\
     POS.st_storeId (fst r) = Some store /\
     (forall p, In p (POS.st_products (fst r)) ->
        exists row,
          In row (Backend.products (Backend.db w)) /\
          Backend.pr_store_id row = store /\
          Backend.pr_active row = Some true /\ shows p row) /\
     (forall row,
        In row (Backend.products (Backend.db w)) ->
        Backend.pr_store_id row = store ->
        Backend.pr_active row = Some true ->
        exists p, In p (POS.st_products (fst r)) /\ shows p row)).
Proof.
  intros r shows. subst r shows.
  destruct (POS.st_user s) as [user_id|] eqn:Hu.
  2:{ unfold Startup.fetchStoreAndProducts. rewrite Hu. simpl. by split; [|left]. }
  destruct (fetchStore_cases user_id s w Hu)
    as (Hd & [[-> _]|(store & Hp & _ & _ & [-> | ->])]); cbv zeta in *;
    (split; [exact Hd|]); [by left..|].
  right. exists user_id, store. split_and!; try done; simpl.
  - intros p Hin. unfold POS.storeProducts in Hin.
    apply in_map_iff in Hin as (row & <- & Hin).
    apply list_elem_of_In, list_elem_of_filter in Hin as [[Hs Ha] Hin].
    exists row. split_and!; try done. by apply list_elem_of_In.
  - intros row Hin Hs Ha. eexists. split.
    + unfold POS.storeProducts. apply in_map_iff. exists row.
      split; [reflexivity|].
      apply list_elem_of_In, list_elem_of_filter. split; [done|].
      by apply list_elem_of_In.
    + by split_and!.
Qed.

(** X24. The search of the products, for any lower-casing function: a
    product is found by its full name; two searches that differ only in
    what lower-casing removes give the same list; and, lower-casing the
    empty text to itself, the empty search lists every product. *)
Theorem search_finds_products (toLowerCase : string -> string)
  (products : list Cart.Product) :
  (forall p, In p products ->
             In p (Startup.filteredProducts toLowerCase products (Cart.p_name p))) /\
  (forall q1 q2,
      toLowerCase q1 = toLowerCase q2 ->
      Startup.filteredProducts toLowerCase products q1
      = Startup.filteredProducts toLowerCase products q2) /\
  (toLowerCase "" = "" ->
   Startup.filteredProducts toLowerCase products "" = products).
Proof.
  unfold Startup.filteredProducts. split_and!.
  - intros p Hin. apply filter_In. split; [done|]. apply includes_self.
  - by intros q1 q2 ->.
  - intros ->. induction products as [|p l IH]; simpl; [done|].
    by rewrite includes_empty, IH.
Qed.

Lemma search_finds_products_witness :
  Startup.lower "" = "" /\
  Startup.lower "SoDa" = Startup.lower "soda" /\
  Startup.filteredProducts Startup.lower [Demo.soda; Demo.milk] ""
  = [Demo.soda; Demo.milk] /\
  Startup.filteredProducts Startup.lower [Demo.soda; Demo.milk] "SoDa"
  = Startup.filteredProducts Startup.lower [Demo.soda; Demo.milk] "soda" /\
  In Demo.milk (Startup.filteredProducts Startup.lower [Demo.soda; Demo.milk] "Milk").
Proof.
  assert (Startup.lower "" = "") as H0 by reflexivity.
  assert (Startup.lower "SoDa" = Startup.lower "soda") as H1 by reflexivity.
  destruct (search_finds_products Startup.lower [Demo.soda; Demo.milk])
    as (Hfind & Hcase & Hall).
  split_and!; [exact H0|exact H1|exact (Hall H0)|exact (Hcase _ _ H1)|].
  apply (Hfind Demo.milk). right. by left.
Defined.

(** X25. Signing up creates the profile of the new user without a store
    and touches nothing else: looking the new user up gives that one
    profile, every other user is looked up as before, and the products,
    sales, sale_items and payments are as before.  The trigger fails
    exactly when a profile with that id exists already. *)
Theorem new_user_gets_profile_without_store (d : Backend.DB) (new_id : string) :
  (Startup.handle_new_user d new_id = None <->
   new_id ∈ map Backend.pf_id (Backend.profiles d)) /\
  (forall d',
      Startup.handle_new_user d new_id = Some d' ->
      Dashboard.profileRows new_id d' = [None] /\
      (forall other, other <> new_id ->
                     Dashboard.profileRows other d' = Dashboard.profileRows other d) /\
      Backend.products d' = Backend.products d /\
      Backend.sales d' = Backend.sales d /\
      Backend.sale_items d' = Backend.sale_items d /\
      Backend.payments d' = Backend.payments d).
Proof.
  split.
  - unfold Startup.handle_new_user.
    destruct (bool_decide _) eqn:E.
    + apply bool_decide_eq_true in E. by split.
    + apply bool_decide_eq_false in E. by split.
  - intros d' Hnew. split; [by apply (new_profile_rows d)|].
    revert Hnew. unfold Startup.handle_new_user.
    destruct (bool_decide _); [done|]. intros [= <-]. simpl.
    split_and!; try done.
    intros other Hne. unfold Dashboard.profileRows. simpl.
    rewrite filter_app, filter_cons_False, filter_nil, app_nil_r; [done|].
    simpl. congruence.
Qed.

Lemma new_user_gets_profile_without_store_witness :
  exists d',
    Startup.handle_new_user Demo.shelf "u2" = Some d' /\
    Dashboard.profileRows "u2" d' = [None] /\
    Dashboard.profileRows "u1" d' = [Some "s1"] /\
    Startup.handle_new_user d' "u2" = None.
Proof.
  eexists. split; [reflexivity|].
  destruct (new_user_gets_profile_without_store Demo.shelf "u2") as [_ H].
  destruct (H _ eq_refl) as (Hnew & Hother & _).
  split; [exact Hnew|]. split; [|reflexivity].
  rewrite (Hother "u1"); [reflexivity|discriminate].
Defined.
